(** * roosterjs: undo nesting, disposal, scopers and selection restore

    A shallow embedding of the parts of roosterjs that own the undo
    suppression flag ([runWithUndo], [Editor.addUndoSnapshot]), the editor
    life cycle ([Editor.dispose], [Editor.runAsync]), the traversal scopers
    ([BodyScoper], [BlockScoper]) and the selection helpers
    ([SelectionRange], [keepSelection]).

    JavaScript callbacks are functions over the state they can reach; a
    call either returns a value or throws, and every mutation made before
    a throw stays in the state. *)

From Stdlib Require Import ZArith List String Bool Lia.
Import ListNotations.

Local Open Scope string_scope.
Local Open Scope list_scope.
Local Open Scope Z_scope.

Set Implicit Arguments.
Set Warnings "-register-all".

(** ** Calls that return or throw *)

Inductive Exn : Type :=
| TypeError (* reading a property of null *)
| Error (message : string).

Inductive outcome (A : Type) : Type :=
| Ok (a : A)
| Throw (e : Exn).

Arguments Ok {A} a.
Arguments Throw {A} e.

(** A computation over a mutable state [S]: the state after the call and
    what the call produced. *)
Definition M (S A : Type) : Type := S -> S * outcome A.

Section StateExn.
Context {S : Type}.

Definition ret {A} (a : A) : M S A := fun s => (s, Ok a).

Definition throw {A} (e : Exn) : M S A := fun s => (s, Throw e).

Definition bind {A B} (m : M S A) (k : A -> M S B) : M S B :=
  fun s =>
    match m s with
    | (s1, Ok a) => k a s1
    | (s1, Throw e) => (s1, Throw e)
    end.

Definition gets {A} (f : S -> A) : M S A := fun s => (s, Ok (f s)).

Definition modify (f : S -> S) : M S unit := fun s => (f s, Ok tt).

(** [try { body } finally { fin }]: [fin] runs on both exits; the result
    of [body] is kept unless [fin] itself throws. *)
Definition try_finally {A} (body : M S A) (fin : M S unit) : M S A :=
  fun s =>
    let (s1, r) := body s in
    match fin s1 with
    | (s2, Ok _) => (s2, r)
    | (s2, Throw e) => (s2, Throw e)
    end.

Definition when (b : bool) (m : M S unit) : M S unit :=
  if b then m else ret tt.

(** [Array.prototype.forEach] and [for ... of]: in order, stopping at the
    first call that throws. *)
Fixpoint forEach {A} (xs : list A) (f : A -> M S unit) : M S unit :=
  match xs with
  | [] => ret tt
  | x :: rest => bind (f x) (fun _ => forEach rest f)
  end.

(** An optional callback: [if (cb) { cb(); }]. *)
Definition callOpt (cb : option (M S unit)) : M S unit :=
  match cb with
  | Some f => f
  | None => ret tt
  end.

End StateExn.

Declare Scope js_scope.
Delimit Scope js_scope with js.
Notation "x <- m ;; k" := (bind m (fun x => k))
  (at level 61, m at next level, right associativity) : js_scope.
Notation "m ;; k" := (bind m (fun _ => k))
  (at level 61, right associativity) : js_scope.
Local Open Scope js_scope.

(** ** The document tree *)

Module Dom.

(** [NodeType] of roosterjs-editor-types, the values of [Node.nodeType]. *)
Inductive NodeType : Type :=
| Element
| Text
| Comment.

(** A node of the document. Node objects have identity: [id] stands for the
    object, and [==] on nodes compares it. *)
Inductive Node : Type :=
| ElementNode (id : nat) (tagName : string) (childNodes : list Node)
| TextNode (id : nat) (data : string)
| CommentNode (id : nat) (data : string).

Definition nodeId (n : Node) : nat :=
  match n with
  | ElementNode id _ _ => id
  | TextNode id _ => id
  | CommentNode id _ => id
  end.

Definition nodeType (n : Node) : NodeType :=
  match n with
  | ElementNode _ _ _ => Element
  | TextNode _ _ => Text
  | CommentNode _ _ => Comment
  end.

Definition childNodes (n : Node) : list Node :=
  match n with
  | ElementNode _ _ cs => cs
  | _ => []
  end.

(** [a == b] on node references. *)
Definition sameNode (a b : Node) : bool := Nat.eqb (nodeId a) (nodeId b).

(** [Node.contains(other)] of the DOM: [other] is the node itself or one of
    its descendants. *)
Fixpoint Node_contains (n other : Node) : bool :=
  sameNode n other
  || match n with
     | ElementNode _ _ cs => existsb (fun c => Node_contains c other) cs
     | _ => false
     end.

(** [contains(container, contained)] of roosterjs-editor-dom, which is not
    among the sources: a parameter wherever it is called. *)
Definition ContainsFn : Type := Node -> Node -> bool.

End Dom.

(** ** Plugin events (roosterjs-editor-types) *)

Inductive PluginEventType : Type :=
| KeyDown
| KeyPress
| KeyUp
| CompositionEnd
| MouseDown
| MouseUp
| ContentChanged
| ExtractContent
| EditorReady
| BeforeDispose
| Idle.

(** A value of TypeScript's [any]; the code only passes it along. *)
Definition Any : Type := string.

(** [ContentChangedEvent] and the events that carry nothing but their type.
    [source] is a [ChangeSource | string] and may be null; [data] is
    [None] for [undefined]. *)
Record PluginEvent : Type := mkEvent {
  eventType : PluginEventType;
  source : option string;
  data : option Any
}.

(** ** The undo engine: [coreAPI/runWithUndo.ts] and the undo methods of
    [Editor.ts] *)

Module UndoEngine.
Import Dom.

(** The fields of [EditorCore] the undo API reads and writes.

    [undo] is the [UndoService]. It is an interface ([options.undo || new
    Undo()]) whose implementations are not among the sources, so the model
    keeps what every implementation is handed: one entry per call of
    [core.undo.addUndoSnapshot()], holding the content at the time of the
    call, oldest first.

    [dispatched] lists the events handed to [core.api.triggerEvent], with
    their broadcast flag, oldest first. *)
Record EditorCore : Type := mkCore {
  contentDiv : Node;
  undo : list Node;
  suspendUndo : bool;
  dispatched : list (PluginEvent * bool)
}.

Definition set_contentDiv (n : Node) (c : EditorCore) : EditorCore :=
  mkCore n (undo c) (suspendUndo c) (dispatched c).

Definition set_undo (u : list Node) (c : EditorCore) : EditorCore :=
  mkCore (contentDiv c) u (suspendUndo c) (dispatched c).

Definition set_suspendUndo (b : bool) (c : EditorCore) : EditorCore :=
  mkCore (contentDiv c) (undo c) b (dispatched c).

Definition set_dispatched (d : list (PluginEvent * bool)) (c : EditorCore) : EditorCore :=
  mkCore (contentDiv c) (undo c) (suspendUndo c) d.

(** A callback, an event handler or an API call running against the core. *)
Definition Call (A : Type) : Type := M EditorCore A.

(** The core after [core.undo.addUndoSnapshot()]. *)
Definition snapshot (c : EditorCore) : EditorCore :=
  set_undo (undo c ++ [contentDiv c]) c.

(** [core.undo.addUndoSnapshot()]. *)
Definition undo_addUndoSnapshot : Call unit := modify snapshot.

(** The core the dispatcher hands to the plugins for [event]. *)
Definition logged (event : PluginEvent) (broadcast : bool) (c : EditorCore) : EditorCore :=
  set_dispatched (dispatched c ++ [(event, broadcast)]) c.

(** JavaScript truthiness of a [ChangeSource | string]: null and the empty
    string are falsy. *)
Definition truthy (changeSource : option string) : bool :=
  match changeSource with
  | Some s => negb (String.eqb s "")
  | None => false
  end.

Section CoreApi.

(** The plugins' event handling, reached through [core.api.triggerEvent];
    the dispatcher is not among the sources. *)
Variable onPluginEvent : PluginEvent -> bool -> Call unit.

(** [core.api.triggerEvent(core, event, broadcast)]. *)
Definition api_triggerEvent (event : PluginEvent) (broadcast : bool) : Call unit :=
  modify (logged event broadcast) ;;
  onPluginEvent event broadcast.

(** [data: getDataCallback && getDataCallback()]. *)
Definition getData (getDataCallback : option (Call Any)) : Call (option Any) :=
  match getDataCallback with
  | Some g => d <- g ;; ret (Some d)
  | None => ret None
  end.

(** [runWithUndo(core, callback, changeSource, getDataCallback)],
    runWithUndo.ts lines 4-38. *)
Definition runWithUndo (callback : option (Call unit)) (changeSource : option string)
    (getDataCallback : option (Call Any)) : Call unit :=
  isNested <- gets suspendUndo ;;
  when (negb isNested)
    (undo_addUndoSnapshot ;;
     modify (set_suspendUndo true)) ;;
  try_finally
    (match callback with
     | Some cb =>
         cb ;;
         when (negb isNested) undo_addUndoSnapshot ;;
         when (negb isNested && truthy changeSource)
           (d <- getData getDataCallback ;;
            api_triggerEvent (mkEvent ContentChanged changeSource d) true)
     | None => ret tt
     end)
    (when (negb isNested) (modify (set_suspendUndo false))).

(** [Editor.runWithoutAddingUndoSnapshot(callback)], Editor.ts lines
    491-498 (deprecated). *)
Definition Editor_runWithoutAddingUndoSnapshot (callback : Call unit) : Call unit :=
  try_finally
    (modify (set_suspendUndo true) ;;
     callback)
    (modify (set_suspendUndo false)).

(** [Editor.addUndoSnapshot()], Editor.ts lines 503-507 (deprecated). *)
Definition Editor_addUndoSnapshot : Call unit :=
  suspended <- gets suspendUndo ;;
  when (negb suspended) undo_addUndoSnapshot.

End CoreApi.

(** A callback that edits the document: [contentDiv] becomes [f contentDiv]. *)
Definition edit (f : Node -> Node) : Call unit :=
  modify (fun c => set_contentDiv (f (contentDiv c)) c).

(** The core on entry of an outermost [runWithUndo]'s callback. *)
Definition entered (c : EditorCore) : EditorCore :=
  set_suspendUndo true (snapshot c).

(** The event an outermost [runWithUndo] builds, runWithUndo.ts lines
    25-29. *)
Definition contentChanged (changeSource : option string) (d : option Any) : PluginEvent :=
  mkEvent ContentChanged changeSource d.

(** A call respects suppression when, started with the flag set, it ends
    with the flag set and has handed the undo service nothing. Edits do,
    and so do the undo API's own entry points (see the closure lemmas). *)
Definition Suppressed {A} (f : Call A) : Prop :=
  forall c, suspendUndo c = true ->
    suspendUndo (fst (f c)) = true /\ undo (fst (f c)) = undo c.

(** A call is quiet when it hands no event to the dispatcher. *)
Definition Quiet {A} (f : Call A) : Prop :=
  forall c, dispatched (fst (f c)) = dispatched c.

(** [getDataCallback && getDataCallback()] evaluated to [d], taking the
    core from [c2] to [c3]: the value the callback returned, or
    [undefined] when there is no callback. *)
Definition dataFrom (getDataCallback : option (Call Any)) (c2 c3 : EditorCore)
    (d : option Any) : Prop :=
  match getDataCallback with
  | Some g => exists v, g c2 = (c3, Ok v) /\ d = Some v
  | None => c3 = c2 /\ d = None
  end.

(** The invocation on [c] dispatched [event], and only that. *)
Definition notifies (c final : EditorCore) (event : PluginEvent) : Prop :=
  dispatched final = dispatched c ++ [(event, true)].

(** The plugins' event handling, and an invocation seen as a function of
    it: the callbacks are given, the plugins vary. *)
Definition Handler : Type := PluginEvent -> bool -> Call unit.

Definition Invocation : Type := Handler -> EditorCore * outcome unit.

(** The invocation fires the notification [event] on the core [c3]:
    whatever the plugins do with an event, the invocation is their
    handling of [event], broadcast, on [c3] with [event] entered last in
    the list of dispatched events, followed by the clearing of the flag;
    what the plugins throw is what the invocation throws. So the
    dispatcher is called once by the invocation itself, with [event], and
    nothing of the invocation comes after it but the [finally] clause. *)
Definition fires (run : Invocation) (event : PluginEvent) (c3 : EditorCore) : Prop :=
  forall h : Handler,
    run h = (set_suspendUndo false (fst (h event true (logged event true c3))),
             snd (h event true (logged event true c3))).

(** The invocation never reaches the plugins itself: it is the same
    whatever they do. *)
Definition bypasses (run : Invocation) : Prop :=
  forall h h' : Handler, run h = run h'.

(** The core as the callbacks of an invocation on [c] leave it: the
    callback, and after it [getDataCallback] when the invocation is the
    outermost one, the callback returned and [changeSource] is not empty. *)
Definition leftByCallbacks (callback : option (Call unit)) (changeSource : option string)
    (getDataCallback : option (Call Any)) (c : EditorCore) : EditorCore :=
  if suspendUndo c then fst (callOpt callback c)
  else
    match callback with
    | Some cb =>
        match cb (entered c) with
        | (c1, Ok _) =>
            if truthy changeSource then fst (getData getDataCallback (snapshot c1)) else c1
        | (c1, Throw _) => c1
        end
    | None => c
    end.

End UndoEngine.

(** ** The editor's life cycle: [Editor.dispose], [Editor.isDisposed] and
    [Editor.runAsync] of [Editor.ts] *)

Module Lifecycle.

Section Host.

(** [W] is the state of the host page that plugins, event subscriptions
    and custom data hold resources in (timers, listeners, attributes of the
    content div); [V] is the type of custom data values. *)
Context {W V : Type}.

(** A disposer: a closure over the host page that returns or throws. *)
Definition Disposer : Type := M W unit.

Record EditorPlugin : Type := mkPlugin {
  name : string;
  plugin_dispose : Disposer
}.

(** An entry of [core.customData]; [disposer] may be missing. *)
Record CustomData : Type := mkCustomData {
  value : V;
  disposer : option (V -> Disposer)
}.

(** The fields of [EditorCore] that [dispose] reads and writes.
    [customData] is a JavaScript object: its entries in the order of
    [Object.keys], an entry being [None] when the key holds a falsy value. *)
Record EditorCore : Type := mkCore {
  plugins : list EditorPlugin;
  customData : list (string * option CustomData);
  idleLoopHandle : Z
}.

(** The private fields of the [Editor] class; [core] and [eventDisposers]
    are null after [dispose]. *)
Record Editor : Type := mkEditor {
  core : option EditorCore;
  eventDisposers : option (list Disposer);
  omitContentEditable : bool
}.

(** An editor object in its host page. *)
Record Host : Type := mkHost {
  this : Editor;
  world : W
}.

Definition set_idleLoopHandle (h : Z) (c : EditorCore) : EditorCore :=
  mkCore (plugins c) (customData c) h.

Definition set_customData (d : list (string * option CustomData)) (c : EditorCore) : EditorCore :=
  mkCore (plugins c) d (idleLoopHandle c).

Definition set_core (c : option EditorCore) (e : Editor) : Editor :=
  mkEditor c (eventDisposers e) (omitContentEditable e).

Definition set_eventDisposers (d : option (list Disposer)) (e : Editor) : Editor :=
  mkEditor (core e) d (omitContentEditable e).

Definition set_this (e : Editor) (h : Host) : Host := mkHost e (world h).

(** [customData[key]]. *)
Fixpoint lookup (key : string) (o : list (string * option CustomData)) : option CustomData :=
  match o with
  | [] => None
  | (k, d) :: rest => if String.eqb k key then d else lookup key rest
  end.

(** [delete customData[key]]. *)
Definition delete (key : string) (o : list (string * option CustomData))
    : list (string * option CustomData) :=
  filter (fun kd => negb (String.eqb (fst kd) key)) o.

(** Running a closure over the page from inside an editor method. *)
Definition inWorld {A} (f : M W A) : M Host A :=
  fun h =>
    let (w, r) := f (world h) in
    (mkHost (this h) w, r).

(** [this.core.<field>]: a TypeError once [core] is null. *)
Definition this_core : M Host EditorCore :=
  fun h =>
    match core (this h) with
    | Some c => (h, Ok c)
    | None => (h, Throw TypeError)
    end.

(** [this.eventDisposers.forEach]: a TypeError once the field is null. *)
Definition this_eventDisposers : M Host (list Disposer) :=
  fun h =>
    match eventDisposers (this h) with
    | Some ds => (h, Ok ds)
    | None => (h, Throw TypeError)
    end.

(** An assignment to a field of [this.core]. *)
Definition update_core (f : EditorCore -> EditorCore) : M Host unit :=
  c <- this_core ;;
  modify (fun h => set_this (set_core (Some (f c)) (this h)) h).

(** The host's side of the calls [dispose] makes: event dispatch
    ([core.api.triggerEvent]), [window.clearInterval], and resetting the
    content div's selection styles and [contenteditable] attribute. *)
Variable api_triggerEvent : PluginEvent -> bool -> M W unit.
Variable win_clearInterval : Z -> W -> W.
Variable resetContentEditable : W -> W.

(** [Editor.triggerEvent], Editor.ts lines 426-428. *)
Definition Editor_triggerEvent (pluginEvent : PluginEvent) (broadcast : bool) : M Host unit :=
  _ <- this_core ;;
  inWorld (api_triggerEvent pluginEvent broadcast).

(** The body of the [for (let key of Object.keys(customData))] loop,
    Editor.ts lines 139-143. *)
Definition disposeCustomData (key : string) : M Host unit :=
  c <- this_core ;;
  match lookup key (customData c) with
  | Some d =>
      match disposer d with
      | Some f => inWorld (f (value d))
      | None => ret tt
      end
  | None => ret tt
  end ;;
  update_core (fun c => set_customData (delete key (customData c)) c).

(** [Editor.dispose()], Editor.ts lines 117-153. *)
Definition dispose : M Host unit :=
  Editor_triggerEvent (mkEvent BeforeDispose None None) true ;;
  c <- this_core ;;
  when (0 <? idleLoopHandle c)
    (inWorld (modify (win_clearInterval (idleLoopHandle c))) ;;
     update_core (set_idleLoopHandle 0)) ;;
  c <- this_core ;;
  forEach (plugins c) (fun plugin => inWorld (plugin_dispose plugin)) ;;
  ds <- this_eventDisposers ;;
  forEach ds (fun d => inWorld d) ;;
  modify (fun h => set_this (set_eventDisposers None (this h)) h) ;;
  c <- this_core ;;
  forEach (map fst (customData c)) disposeCustomData ;;
  omit <- gets (fun h => omitContentEditable (this h)) ;;
  when (negb omit) (inWorld (modify resetContentEditable)) ;;
  modify (fun h => set_this (set_core None (this h)) h).

(** [Editor.isDisposed()], Editor.ts lines 159-161. *)
Definition isDisposed (e : Editor) : bool :=
  match core e with
  | Some _ => false
  | None => true
  end.

(** A callback handed to the editor: it may call the editor's methods and
    touch the page. *)
Definition Task : Type := M Host unit.

(** The page with the callbacks registered through
    [requestAnimationFrame] and not fired yet, oldest first. *)
Record Window : Type := mkWindow {
  host : Host;
  animationFrames : list Task
}.

(** The closure [runAsync] registers, Editor.ts lines 587-591. *)
Definition runAsync_frame (callback : option Task) : Task :=
  disposed <- gets (fun h => isDisposed (this h)) ;;
  match callback with
  | Some cb => when (negb disposed) cb
  | None => ret tt
  end.

(** [Editor.runAsync(callback)], Editor.ts lines 585-592. *)
Definition runAsync (callback : option Task) : M Window unit :=
  fun w =>
    match core (this (host w)) with
    | Some _ => (mkWindow (host w) (animationFrames w ++ [runAsync_frame callback]), Ok tt)
    | None => (w, Throw TypeError)
    end.

(** The browser firing the oldest registered frame callback. *)
Definition fireAnimationFrame : M Window unit :=
  fun w =>
    match animationFrames w with
    | [] => (w, Ok tt)
    | f :: rest =>
        let (h, r) := f (host w) in
        (mkWindow h rest, r)
    end.

(** Any editor method, run while frames are pending. *)
Definition inHost {A} (f : M Host A) : M Window A :=
  fun w =>
    let (h, r) := f (host w) in
    (mkWindow h (animationFrames w), r).

(** Running actions one after the other, up to the first throw. *)
Definition runAll (actions : list Disposer) : Disposer :=
  forEach actions (fun d => d).

(** The teardown actions registered with an editor, in the order
    [dispose] reaches them. *)
Definition customDisposers (o : list (string * option CustomData)) : list Disposer :=
  flat_map
    (fun kd =>
       match snd kd with
       | Some d =>
           match disposer d with
           | Some f => [f (value d)]
           | None => []
           end
       | None => []
       end)
    o.

Definition teardown (c : EditorCore) (ds : list Disposer) : list Disposer :=
  map plugin_dispose (plugins c) ++ ds ++ customDisposers (customData c).

End Host.

End Lifecycle.

(** ** Positions and selection ranges: [selection/SelectionRange.ts] *)

Module Selection.
Import Dom.

(** Modelled from the spec: the [Position] class ([selection/Position.ts] is
    not among the sources): a [(node, offset)] coordinate with its resolved
    [isAtEnd] flag. *)
Record Position : Type := mkPosition {
  node : Node;
  offset : Z;
  isAtEnd : bool
}.

(** The browser's [Range], as far as the code reads it. *)
Record Range : Type := mkRange {
  startContainer : Node;
  startOffset : Z;
  endContainer : Node;
  endOffset : Z
}.

Record SelectionRange : Type := mkSelectionRange {
  collapsed : bool;
  start : Position;
  end_ : Position;
  rawRange : option Range
}.

Section Constructor.

(** [new Position(node, offset)], whose constructor is not among the
    sources. *)
Variable Position_new : Node -> Z -> Position.

(** The constructor of [SelectionRange], lines 40-50 of SelectionRange.ts:
    [inl start] with an optional [end], or [inr rawRange]. *)
Definition SelectionRange_new (startOrRawRange : Position + Range) (end' : option Position)
    : SelectionRange :=
  let '(raw, s, e) :=
    match startOrRawRange with
    | inr r =>
        (Some r,
         Position_new (startContainer r) (startOffset r),
         Position_new (endContainer r) (endOffset r))
    | inl s =>
        (None, s, match end' with Some e => e | None => s end)
    end in
  mkSelectionRange
    (sameNode (node s) (node e) && (offset s =? offset e))
    s e raw.

End Constructor.

(** Positions are equal when they have the same container and the same
    offset. *)
Definition Position_equalTo (p q : Position) : bool :=
  sameNode (node p) (node q) && (offset p =? offset q).

End Selection.

(** ** Scopers: [scopers/BodyScoper.ts], and [BlockScoper] as its tests use
    it *)

Module Scopers.
Import Dom Selection.

(** Modelled from the spec: [BlockElement] (its classes are not among the
    sources). A node-block is anchored to one container node; a start-end
    block to a run of siblings from [startNode] to [endNode] under
    [rootNode]. *)
Inductive BlockElement : Type :=
| NodeBlockElement (containerNode : Node)
| StartEndBlockElement (rootNode startNode endNode : Node).

Definition getStartNode (b : BlockElement) : Node :=
  match b with
  | NodeBlockElement n => n
  | StartEndBlockElement _ s _ => s
  end.

Definition getEndNode (b : BlockElement) : Node :=
  match b with
  | NodeBlockElement n => n
  | StartEndBlockElement _ _ e => e
  end.

(** Modelled from the spec: block equality is structural, two blocks are
    equal iff their start and end nodes match. *)
Definition equals (a b : BlockElement) : bool :=
  sameNode (getStartNode a) (getStartNode b) && sameNode (getEndNode a) (getEndNode b).

(** Modelled from the spec: [InlineElement], one run of inline content in
    its container node, bounded by two positions. *)
Record InlineElement : Type := mkInline {
  inlineContainer : Node;
  startPosition : Position;
  endPosition : Position
}.

(** [ContentPosition] of roosterjs-editor-types, as far as scopers use it. *)
Inductive ContentPosition : Type :=
| Begin
| End_
| SelectionStart.

(** The [TraversingScoper] interface. *)
Record TraversingScoper : Type := mkScoper {
  getStartBlockElement : option BlockElement;
  getStartInlineElement : option InlineElement;
  isBlockInScope : BlockElement -> bool;
  trimInlineElement : InlineElement -> option InlineElement
}.

(** [n] is [r] or lies below it in the tree. *)
Inductive Under (r : Node) : Node -> Prop :=
| Under_self : Under r r
| Under_child id tag cs c n :
    r = ElementNode id tag cs -> In c cs -> Under c n -> Under r n.

Section ObjectModel.

(** [getFirstBlockElement] and [getFirstInlineElement] of
    [objectModel/BlockElement], not among the sources. *)
Variable getFirstBlockElement : Node -> option BlockElement.
Variable getFirstInlineElement : Node -> option InlineElement.

(** [class BodyScoper], BodyScoper.ts lines 6-28. *)
Definition BodyScoper (rootNode : Node) : TraversingScoper :=
  mkScoper
    (getFirstBlockElement rootNode)
    (getFirstInlineElement rootNode)
    (fun blockElement => Node_contains rootNode (getStartNode blockElement))
    (fun inlineElement => Some inlineElement).

End ObjectModel.

Section BlockModel.

(** The classifier of block-level nodes, supplied from outside the core. *)
Variable isBlockLevel : Node -> bool.

(** Modelled from the spec: the line-break node that delimits a run of
    inline siblings ([getTagOfNode(node) == 'BR'] in Editor.ts). *)
Definition isLineBreak (n : Node) : bool :=
  match n with
  | ElementNode _ tag _ => String.eqb tag "BR"
  | _ => false
  end.

(** Modelled from the spec: the upward walk of [blockElementAtPosition],
    as the nodes from [root] down to the node with identity [target]. *)
Fixpoint pathTo (root : Node) (target : nat) : option (list Node) :=
  if Nat.eqb (nodeId root) target then Some [root]
  else
    match root with
    | ElementNode _ _ cs =>
        (fix first (cs : list Node) : option (list Node) :=
           match cs with
           | [] => None
           | c :: rest =>
               match pathTo c target with
               | Some p => Some (root :: p)
               | None => first rest
               end
           end) cs
    | _ => None
    end.

(** Modelled from the spec: the siblings of a run. Splitting the children
    of the root around the one with identity [target]: the siblings before
    it, nearest first, and those after it. *)
Fixpoint around (target : nat) (before siblings : list Node) : list Node * list Node :=
  match siblings with
  | [] => (before, [])
  | c :: rest =>
      if Nat.eqb (nodeId c) target then (before, rest)
      else around target (c :: before) rest
  end.

(** Modelled from the spec: the first node of the inline run ending at
    [cur], walking left up to a block or a line break. *)
Fixpoint runStart (cur : Node) (before : list Node) : Node :=
  match before with
  | [] => cur
  | p :: rest =>
      if isBlockLevel p || isLineBreak p then cur else runStart p rest
  end.

(** Modelled from the spec: the last node of the inline run starting at
    [cur], walking right; a line break ends the run it belongs to. *)
Fixpoint runEnd (cur : Node) (after : list Node) : Node :=
  if isLineBreak cur then cur
  else
    match after with
    | [] => cur
    | n :: rest => if isBlockLevel n then cur else runEnd n rest
    end.

(** Modelled from the spec: [blockElementAtPosition(root, position)], not
    among the sources. Walk upward from the position's container to the
    nearest block-level ancestor inside [root] (a node-block); failing
    that, the maximal run of inline siblings around the position, delimited
    by a line break or the container's edge (a start-end block). *)
Definition getBlockElementAtNode (rootNode : Node) (n : Node) : option BlockElement :=
  match pathTo rootNode (nodeId n) with
  | Some (_ :: below) =>
      match find isBlockLevel (rev below) with
      | Some b => Some (NodeBlockElement b)
      | None =>
          match below with
          | top :: _ =>
              let (before, after) := around (nodeId top) [] (childNodes rootNode) in
              Some (StartEndBlockElement rootNode (runStart top before) (runEnd top after))
          | [] => None
          end
      end
  | _ => None
  end.

(** Modelled from the spec: a block contains a node when the node lies
    under the block's container, or under one of the siblings of its run. *)
Definition isInBlock (b : BlockElement) (n : Node) : bool :=
  match b with
  | NodeBlockElement c => Node_contains c n
  | StartEndBlockElement root s e =>
      let (_, fromStart) := around (nodeId s) [] (childNodes root) in
      let (revRun, _) := around (nodeId e) [] (s :: fromStart) in
      existsb (fun c => Node_contains c n) (e :: revRun)
  end.

(** The inline element a block scoper starts from, computed by the inline
    model, which is not among the sources. *)
Variable inlineAt : Node -> Position -> ContentPosition -> option InlineElement.

(** Modelled from the spec: [BlockScoper] ([contentTraverser/BlockScoper] is
    not among the sources; BlockScoperTest constructs it from a root, the
    selection's start position and a [ContentPosition]). Its scope is the
    single block containing the position: a block is in scope iff it
    equals the start block, and an inline element is kept iff it lies
    within the start block. *)
Definition BlockScoper (rootNode : Node) (position : Position) (startPosition : ContentPosition)
    : TraversingScoper :=
  let block := getBlockElementAtNode rootNode (node position) in
  mkScoper
    block
    (inlineAt rootNode position startPosition)
    (fun blockElement =>
       match block with
       | Some b => equals b blockElement
       | None => false
       end)
    (fun inlineElement =>
       match block with
       | Some b => if isInBlock b (inlineContainer inlineElement) then Some inlineElement else None
       | None => None
       end).

End BlockModel.

(** Modelled from the spec: the classifier's block-level tags
    (paragraph-like, list item, table cell, div and the like). *)
Definition isBlockTag (n : Node) : bool :=
  match n with
  | ElementNode _ tag _ =>
      existsb (String.eqb tag)
        ["P"; "DIV"; "LI"; "TD"; "TH"; "H1"; "H2"; "H3"; "H4"; "H5"; "H6"; "BLOCKQUOTE"; "PRE";
         "UL"; "OL"; "TABLE"]
  | _ => false
  end.

End Scopers.

(** ** Restoring the selection: [format/keepSelection.ts] *)

Module KeepSelection.
Import Dom Selection.

(** [EditorPoint] of roosterjs-editor-types; [containerNode] may be null. *)
Record EditorPoint : Type := mkPoint {
  containerNode : option Node;
  offset : Z
}.

(** [(<Text>node).data.length]. *)
Definition dataLength (n : Node) : Z :=
  match n with
  | TextNode _ d | CommentNode _ d => Z.of_nat (String.length d)
  | ElementNode _ _ _ => 0
  end.

(** What a callback of [keepSelection] may return as a fallback. *)
Inductive Fallback : Type :=
| FallbackNode (n : Node)
| FallbackRange (r : Range)
| NoFallback.

(** The calls [keepSelection] makes on a [Range] object. *)
Inductive RangeCall : Type :=
| SetStart (container : option Node) (offset : Z)
| SetEnd (container : option Node) (offset : Z)
| SelectNode (n : Node).

(** The argument of [editor.updateSelection]: a range object, and the calls
    made on it beforehand. [base] names the range object by what it held
    when [keepSelection] obtained it. *)
Record Update : Type := mkUpdate {
  base : option Range;
  calls : list RangeCall
}.

(** The editor as [keepSelection] sees it. *)
Record Editor : Type := mkEditor {
  contentDiv : Node;
  selectionRange : option Range (* editor.getSelectionRange() *)
}.

(** The two point objects [keepSelection] creates and hands to its
    callback. *)
Inductive PointRef : Type :=
| StartPoint
| EndPoint.

Definition PointRef_eqb (a b : PointRef) : bool :=
  match a, b with
  | StartPoint, StartPoint | EndPoint, EndPoint => true
  | _, _ => false
  end.

(** An assignment to a field of one of them. *)
Inductive PointWrite : Type :=
| WriteContainer (point : PointRef) (n : option Node) (* point.containerNode = n *)
| WriteOffset (point : PointRef) (offset : Z).        (* point.offset = offset *)

(** The callback. It is given the two points, or null twice, and works on
    the content. The points are objects: the callback may assign to their
    fields, and [keepSelection] reads the same two objects afterwards. A
    call leaves the content as it is afterwards, the assignments it made
    to the points, in order, and the fallback it returns or what it
    throws. *)
Definition Callback : Type :=
  option EditorPoint -> option EditorPoint -> Node ->
  Node * list PointWrite * outcome Fallback.

(** The fields of the point [p] after an assignment, and after a list of
    them. *)
Definition write (p : PointRef) (w : PointWrite) (point : EditorPoint) : EditorPoint :=
  match w with
  | WriteContainer q n => if PointRef_eqb p q then mkPoint n (offset point) else point
  | WriteOffset q z => if PointRef_eqb p q then mkPoint (containerNode point) z else point
  end.

Definition written (p : PointRef) (writes : list PointWrite) (point : EditorPoint)
    : EditorPoint :=
  fold_left (fun point w => write p w point) writes point.

(** The node of identity [id] among [n] and its descendants. *)
Fixpoint findNode (id : nat) (n : Node) : option Node :=
  if Nat.eqb (nodeId n) id then Some n
  else
    match n with
    | ElementNode _ _ cs =>
        (fix among (cs : list Node) : option Node :=
           match cs with
           | [] => None
           | c :: rest =>
               match findNode id c with
               | Some m => Some m
               | None => among rest
               end
           end) cs
    | _ => None
    end.

(** Nodes are live objects. A reference to [n], read once the content has
    become [content], shows the node of that identity as it is in
    [content]: its data and its children now, not those it had when the
    reference was taken. A node that is no longer in the content keeps the
    state it was last seen in. *)
Definition live (content n : Node) : Node :=
  match findNode (nodeId n) content with
  | Some m => m
  | None => n
  end.

(** The point object [p], created as [point], as [keepSelection] finds it
    after the callback: the fields as the callback's assignments left
    them, the container in its live state. *)
Definition afterCallback (p : PointRef) (writes : list PointWrite) (content : Node)
    (point : EditorPoint) : EditorPoint :=
  mkPoint (option_map (live content) (containerNode (written p writes point)))
    (offset (written p writes point)).

Section WithDom.

(** [contains] and [normalizeEditorPoint] of roosterjs-editor-dom, not among
    the sources. Each call of [normalizeEditorPoint] returns an object of
    its own. *)
Variable contains : ContainsFn.
Variable normalizeEditorPoint : Node -> Z -> EditorPoint.

(** [Editor.contains(node)], Editor.ts lines 226-228. *)
Definition Editor_contains (content : Node) (n : Node) : bool := contains content n.

(** [validateEditorPoint(editor, point)], keepSelection.ts lines 35-48. The
    point is an object the function writes to: the result pairs the
    returned boolean with the point afterwards. *)
Definition validateEditorPoint (content : Node) (point : EditorPoint) : bool * EditorPoint :=
  match containerNode point with
  | Some n =>
      if Editor_contains content n then
        let point' :=
          match nodeType n with
          | Text => mkPoint (containerNode point) (Z.min (offset point) (dataLength n))
          | Element =>
              mkPoint (containerNode point)
                (Z.min (offset point) (Z.of_nat (List.length (childNodes n))))
          | _ => point
          end in
        (0 <=? offset point', point')
      else (false, point)
  | None => (false, point)
  end.

(** Lines 26-30: the branches taken when the points cannot be used. *)
Definition useFallback (range : option Range) (fallback : Fallback) : outcome Update :=
  match fallback with
  | FallbackNode n =>
      match range with
      | Some r => Ok (mkUpdate (Some r) [SelectNode n])
      | None => Throw TypeError
      end
  | FallbackRange r => Ok (mkUpdate (Some r) [])
  | NoFallback => Ok (mkUpdate range [])
  end.

(** [keepSelection(editor, callback)], keepSelection.ts lines 11-33: the
    content after the callback, and what [editor.updateSelection] is
    called with. The points are normalized before the callback runs
    (lines 13-16); they are validated, and the range is positioned from
    them, as they are after it (lines 19-25). *)
Definition keepSelection (editor : Editor) (callback : Callback) : Node * outcome Update :=
  let range := selectionRange editor in
  let startPoint :=
    option_map (fun r => normalizeEditorPoint (startContainer r) (startOffset r)) range in
  let endPoint :=
    option_map (fun r => normalizeEditorPoint (endContainer r) (endOffset r)) range in
  match callback startPoint endPoint (contentDiv editor) with
  | (content, _, Throw e) => (content, Throw e)
  | (content, writes, Ok fallback) =>
      (content,
       match range, startPoint, endPoint with
       | Some r, Some sp, Some ep =>
           let (validStart, sp') :=
             validateEditorPoint content (afterCallback StartPoint writes content sp) in
           if validStart then
             let (validEnd, ep') :=
               validateEditorPoint content (afterCallback EndPoint writes content ep) in
             if validEnd then
               Ok (mkUpdate (Some r)
                     [SetStart (containerNode sp') (offset sp');
                      SetEnd (containerNode ep') (offset ep')])
             else useFallback range fallback
           else useFallback range fallback
       | _, _, _ => useFallback range fallback
       end)
  end.

End WithDom.

(** Whether a call positions a range from an editor point. *)
Definition fromPoint (c : RangeCall) : bool :=
  match c with
  | SetStart _ _ | SetEnd _ _ => true
  | SelectNode _ => false
  end.

(** Strict containment through the tree, the reading of roosterjs-editor-dom's
    [contains] used in the examples. *)
Definition strictlyContains (container contained : Node) : bool :=
  existsb (fun c => Node_contains c contained) (childNodes container).

End KeepSelection.

(** ** The [Editor] class's entry to the undo engine: [Editor.runWithUndo] *)

Module EditorUndo.
Import UndoEngine.

(** An optional parameter: left out ([undefined]) or passed; a parameter's
    default value applies only when it is left out. *)
Inductive Arg (A : Type) : Type :=
| Omitted
| Passed (a : A).

Arguments Omitted {A}.
Arguments Passed {A} a.

Section WithChangeSource.

(** [ChangeSource.Format] of roosterjs-editor-types, a string constant that
    is not among the sources. *)
Variable ChangeSource_Format : string.

Variable onPluginEvent : PluginEvent -> bool -> Call unit.

(** [Editor.runWithUndo(callback?, changeSource = ChangeSource.Format,
    getDataCallback?)], Editor.ts lines 475-486, on a live editor. *)
Definition Editor_runWithUndo (callback : option (Call unit))
    (changeSource : Arg (option string)) (getDataCallback : option (Call Any)) : Call unit :=
  runWithUndo onPluginEvent callback
    (match changeSource with
     | Omitted => Some ChangeSource_Format
     | Passed s => s
     end)
    getDataCallback.

End WithChangeSource.

(** Whether a call returned. *)
Definition returned {A} (r : outcome A) : bool :=
  match r with
  | Ok _ => true
  | Throw _ => false
  end.

(** Whether [runWithUndo] on [c] gets as far as building its event: lines
    12-24 of runWithUndo.ts evaluated up to the test of line 24. *)
Definition reachesEvent (callback : option (Call unit)) (changeSource : option string)
    (c : EditorCore) : bool :=
  negb (suspendUndo c) && truthy changeSource
  && match callback with
     | Some cb => returned (snd (cb (entered c)))
     | None => false
     end.

End EditorUndo.

(** ** [SelectionRange.getRange] and [SelectionRange.normalize] *)

Module SelectionRangeOps.
Import Dom Selection.

Section WithDom.

(** [new Position(node, offset)] and [Position.normalize()], not among the
    sources. *)
Variable Position_new : Node -> Z -> Position.
Variable Position_normalize : Position -> Position.

(** The browser building a range between two positions:
    [document.createRange()] followed by [setStart] and [setEnd] (lines
    54-57 of the source file, formatTable.ts). *)
Variable createRange : Position -> Position -> Range.

(** [SelectionRange.getRange()], lines 52-60: the range, and the object
    afterwards (the method writes its private [rawRange] field). *)
Definition getRange (s : SelectionRange) : Range * SelectionRange :=
  match rawRange s with
  | Some r => (r, s)
  | None =>
      let r := createRange (start s) (end_ s) in
      (r, mkSelectionRange (collapsed s) (start s) (end_ s) (Some r))
  end.

(** [SelectionRange.normalize()], lines 62-64. *)
Definition normalize (s : SelectionRange) : SelectionRange :=
  SelectionRange_new Position_new
    (inl (Position_normalize (start s)))
    (Some (Position_normalize (end_ s))).

End WithDom.

End SelectionRangeOps.

(** ** Removing a node: [Editor.deleteNode] *)

Module NodeApi.
Import Dom.

(** The tree without the node of identity [target]:
    [node.parentNode.removeChild(node)] seen from the root. *)
Fixpoint removeNode (target : nat) (n : Node) : Node :=
  match n with
  | ElementNode id tag cs =>
      ElementNode id tag
        ((fix children (cs : list Node) : list Node :=
            match cs with
            | [] => []
            | c :: rest =>
                if Nat.eqb (nodeId c) target then children rest
                else removeNode target c :: children rest
            end) cs)
  | _ => n
  end.

(** The children of an element after the removal, as [removeNode] computes
    them. *)
Fixpoint removeAmong (target : nat) (cs : list Node) : list Node :=
  match cs with
  | [] => []
  | c :: rest =>
      if Nat.eqb (nodeId c) target then removeAmong target rest
      else removeNode target c :: removeAmong target rest
  end.

Section WithContains.

(** [contains] of roosterjs-editor-dom, not among the sources. *)
Variable contains : ContainsFn.

(** [Editor.deleteNode(node)], Editor.ts lines 186-194: the content
    afterwards and the returned boolean. *)
Definition deleteNode (content : Node) (node : option Node) : Node * bool :=
  match node with
  | Some n =>
      if contains content n then (removeNode (nodeId n) content, true)
      else (content, false)
  | None => (content, false)
  end.

End WithContains.

(** Structural induction on nodes, with the hypothesis for every child. *)
Fixpoint Node_forall_ind (P : Node -> Prop)
    (element : forall id tag cs, Forall P cs -> P (ElementNode id tag cs))
    (text : forall id d, P (TextNode id d))
    (comment : forall id d, P (CommentNode id d))
    (n : Node) : P n :=
  match n with
  | ElementNode id tag cs =>
      element id tag cs
        ((fix all (cs : list Node) : Forall P cs :=
            match cs with
            | [] => Forall_nil P
            | c :: rest =>
                Forall_cons c (@Node_forall_ind P element text comment c) (all rest)
            end) cs)
  | TextNode id d => text id d
  | CommentNode id d => comment id d
  end.

End NodeApi.

(** ** [calcDefaultFormat] of [editor/EditorCore.ts] *)

Module DefaultFormats.
Import Dom.

(** [DefaultFormat] of roosterjs-editor-types: every field is optional. *)
Record DefaultFormat : Type := mkFormat {
  fontFamily : option string;
  fontSize : option string;
  textColor : option string;
  backgroundColor : option string;
  bold : option bool;
  italic : option bool;
  underline : option bool
}.

(** [{}]. *)
Definition emptyFormat : DefaultFormat :=
  mkFormat None None None None None None None.

(** [a || b] on strings that may be undefined: the empty string is falsy. *)
Definition orElse (a b : option string) : option string :=
  match a with
  | Some s => if String.eqb s "" then b else a
  | None => b
  end.

Section WithStyles.

(** [getComputedStyles(node)] of roosterjs-editor-dom, not among the
    sources: an array of strings. *)
Variable getComputedStyles : Node -> list string.

(** [calcDefaultFormat(node, baseFormat)] of editor/EditorCore.ts, lines
    85-97 of the source file that carries it (runWithUndo.ts). *)
Definition calcDefaultFormat (node : Node) (baseFormat : option DefaultFormat)
    : DefaultFormat :=
  let baseFormat := match baseFormat with Some f => f | None => emptyFormat end in
  let computedStyle := getComputedStyles node in
  mkFormat
    (orElse (fontFamily baseFormat) (nth_error computedStyle 0))
    (orElse (fontSize baseFormat) (nth_error computedStyle 1))
    (orElse (textColor baseFormat) (nth_error computedStyle 2))
    (orElse (backgroundColor baseFormat) (Some ""))
    (bold baseFormat)
    (italic baseFormat)
    (underline baseFormat).

End WithStyles.

(** A string that is there and not empty. *)
Definition given (s : option string) : bool :=
  match s with
  | Some v => negb (String.eqb v "")
  | None => false
  end.

End DefaultFormats.

(** ** Key events: [Editor.stopPropagation] *)

Module Keyboard.

(** A [KeyboardEvent], as far as the handler reads and writes it;
    [stopped] records a call of [event.stopPropagation()]. *)
Record KeyboardEvent : Type := mkKey {
  ctrlKey : bool;
  altKey : bool;
  metaKey : bool;
  which : Z;
  stopped : bool
}.

Definition between (lo hi x : Z) : bool := (lo <=? x) && (x <=? hi).

(** [Editor.stopPropagation], Editor.ts lines 650-665. *)
Definition stopPropagation (event : KeyboardEvent) : KeyboardEvent :=
  if negb (ctrlKey event) && negb (altKey event) && negb (metaKey event)
     && ((which event =? 32)
         || between 65 90 (which event)
         || between 48 57 (which event)
         || between 96 105 (which event)
         || between 186 192 (which event)
         || between 219 222 (which event))
  then mkKey (ctrlKey event) (altKey event) (metaKey event) (which event) true
  else event.

End Keyboard.

(** * Example documents, cores and callbacks *)

Module Scenario.
Import Dom UndoEngine.

(** The content [<p>part1</p><p>part2</p>] in its container. *)
Definition part1Text : Node := TextNode 2 "part1".
Definition part1 : Node := ElementNode 1 "P" [part1Text].
Definition part2Text : Node := TextNode 4 "part2".
Definition part2 : Node := ElementNode 3 "P" [part2Text].
Definition twoParagraphs : Node := ElementNode 0 "DIV" [part1; part2].

(** A live core over that content, outside any [runWithUndo]. *)
Definition idleCore : EditorCore := mkCore twoParagraphs [] false [].

(** An edit: drop the second paragraph. *)
Definition dropSecond : Call unit :=
  edit (fun n =>
          match n with
          | ElementNode id tag (first :: _) => ElementNode id tag [first]
          | _ => n
          end).

Definition oneParagraph : Node := ElementNode 0 "DIV" [part1].

(** Another edit: empty the container. *)
Definition clearAll : Call unit :=
  edit (fun n =>
          match n with
          | ElementNode id tag _ => ElementNode id tag []
          | _ => n
          end).

Definition emptyContent : Node := ElementNode 0 "DIV" [].

(** Plugins that ignore every event. *)
Definition noPlugins : PluginEvent -> bool -> Call unit := fun _ _ => ret tt.

(** A plugin that calls [editor.addUndoSnapshot()] on every event. *)
Definition snapshotOnEvent : PluginEvent -> bool -> Call unit :=
  fun _ _ => Editor_addUndoSnapshot.

(** A plugin that reacts to every event by emptying the container and
    calling [editor.addUndoSnapshot()]. *)
Definition clearOnEvent : PluginEvent -> bool -> Call unit :=
  fun _ _ => clearAll ;; Editor_addUndoSnapshot.

(** A callback that fails. *)
Definition failing {A} : Call A := throw (Error "failed").

(** A data callback. *)
Definition someData : Call Any := ret "payload".

End Scenario.

(** An editor in a page whose state is the list of the resources released
    so far, oldest first. *)
Module DisposalScenario.
Import Lifecycle.

Definition Log : Type := list string.

(** A disposer that releases the resource it is named after. *)
Definition release (resource : string) : M Log unit :=
  modify (fun log => log ++ [resource]).

(** A disposer that throws before releasing anything. *)
Definition broken (resource : string) : M Log unit :=
  throw (Error resource).

Definition deliver : PluginEvent -> bool -> M Log unit := fun _ _ => ret tt.

Definition clearInterval (handle : Z) (log : Log) : Log := log ++ ["idle loop"].

Definition resetContentDiv (log : Log) : Log := log ++ ["contenteditable"].

Definition pickerData : list (string * option (@CustomData Log string)) :=
  [("picker", Some (mkCustomData "picker" (Some release)))].

(** Two plugins, two event subscriptions, one custom datum, an idle loop. *)
Definition healthy : @Editor Log string :=
  mkEditor
    (Some (mkCore [mkPlugin "paste" (release "paste"); mkPlugin "link" (release "link")]
             pickerData 7))
    (Some [release "keydown"; release "blur"])
    false.

(** The same editor with a first plugin whose [dispose] throws. *)
Definition faulty : @Editor Log string :=
  mkEditor
    (Some (mkCore [mkPlugin "paste" (broken "paste"); mkPlugin "link" (release "link")]
             pickerData 7))
    (Some [release "keydown"; release "blur"])
    false.

(** The editor after a successful [dispose]. *)
Definition disposed : @Editor Log string := mkEditor None None false.

(** A deferred callback that leaves a mark in the page. *)
Definition mark : @Task Log string :=
  modify (fun h => mkHost (this h) (world h ++ ["callback ran"])).

End DisposalScenario.

(** Blocks, inline runs and editor points over [<p>part1</p><p>part2</p>]. *)
Module TraversalScenario.
Import Dom Scenario.

(** The inline run "part1". *)
Definition part1Run : Scopers.InlineElement :=
  Scopers.mkInline part1Text
    (Selection.mkPosition part1Text 0 false)
    (Selection.mkPosition part1Text 5 true).

(** The block scoper of BlockScoperTest over this content, anchored at the
    start of [anchor]. *)
Definition anchoredAt
    (inlineAt : Node -> Selection.Position -> Scopers.ContentPosition ->
                option Scopers.InlineElement)
    (anchor : Node) : Scopers.TraversingScoper :=
  Scopers.BlockScoper Scopers.isBlockTag inlineAt twoParagraphs
    (Selection.mkPosition anchor 0 false) Scopers.SelectionStart.

Definition noBlock : Node -> option Scopers.BlockElement := fun _ => None.

Definition noInline : Node -> option Scopers.InlineElement := fun _ => None.

(** A point past the end of "part1", and one on the content div itself. *)
Definition pastText : KeepSelection.EditorPoint := KeepSelection.mkPoint (Some part1Text) 9.

Definition onContentDiv : KeepSelection.EditorPoint :=
  KeepSelection.mkPoint (Some twoParagraphs) 3.

(** A point in a text node that is not in the document. *)
Definition detached : KeepSelection.EditorPoint :=
  KeepSelection.mkPoint (Some (TextNode 9 "gone")) 1.

Definition pointAt (n : Node) (offset : Z) : KeepSelection.EditorPoint :=
  KeepSelection.mkPoint (Some n) offset.

(** The editor's content with the selection running from "part1" to a
    node a callback is about to remove. *)
Definition selecting : KeepSelection.Editor :=
  KeepSelection.mkEditor
    (ElementNode 0 "DIV" [part1; part2; ElementNode 8 "P" [TextNode 9 "gone"]])
    (Some (Selection.mkRange part1Text 2 (TextNode 9 "gone") 1)).

(** A callback that removes the third paragraph and offers the first as a
    fallback. *)
Definition removeThird : KeepSelection.Callback :=
  fun _ _ _ => (twoParagraphs, [], Ok (KeepSelection.FallbackNode part1)).

End TraversalScenario.


(** Editors whose disposal is refused, or fails half way. *)
Module DisposalEdgeCases.
Import Lifecycle DisposalScenario.

(** Plugins one of which throws on [BeforeDispose]. *)
Definition veto : PluginEvent -> bool -> M Log unit :=
  fun event _ =>
    match eventType event with
    | BeforeDispose => throw (Error "busy")
    | _ => ret tt
    end.

(** Three custom data entries; the disposer of the second throws. *)
Definition stuckData : list (string * option (@CustomData Log string)) :=
  [("cache", Some (mkCustomData "cache" (Some release)));
   ("picker", Some (mkCustomData "picker" (Some broken)));
   ("menu", Some (mkCustomData "menu" (Some release)))].

Definition stuck : @Editor Log string :=
  mkEditor (Some (mkCore [mkPlugin "paste" (release "paste")] stuckData 7))
    (Some [release "keydown"])
    false.

(** The healthy editor and its page after [dispose]. *)
Definition afterDispose : @Host Log string :=
  fst (dispose deliver clearInterval resetContentDiv (mkHost healthy [])).

End DisposalEdgeCases.

Module SelectionEdgeCases.
Import Dom Scenario.

(** The caret at the end of "part1". *)
Definition caretAfterPart1 : KeepSelection.Editor :=
  KeepSelection.mkEditor twoParagraphs (Some (Selection.mkRange part1Text 5 part1Text 5)).

(** The content once "part1" has been cut down to "pa". *)
Definition shortText : Node := TextNode 2 "pa".

Definition shortened : Node := ElementNode 0 "DIV" [ElementNode 1 "P" [shortText]; part2].

(** A callback that cuts the text down and leaves the points alone. *)
Definition shorten : KeepSelection.Callback :=
  fun _ _ _ => (shortened, [], Ok KeepSelection.NoFallback).

(** A callback that edits nothing and moves the start point into "part2". *)
Definition moveStart : KeepSelection.Callback :=
  fun _ _ content =>
    (content,
     [KeepSelection.WriteContainer KeepSelection.StartPoint (Some part2Text);
      KeepSelection.WriteOffset KeepSelection.StartPoint 1],
     Ok KeepSelection.NoFallback).

(** A callback that edits nothing and points the end at a node that is not
    in the document. *)
Definition moveEndOutside : KeepSelection.Callback :=
  fun _ _ content =>
    (content,
     [KeepSelection.WriteContainer KeepSelection.EndPoint (Some (TextNode 9 "gone"))],
     Ok (KeepSelection.FallbackNode part1)).

End SelectionEdgeCases.
(** * Properties *)

Unset Implicit Arguments.

(** ** The state-and-exception calls *)

Lemma bind_ok {S A B} (m : M S A) (k : A -> M S B) s s1 a :
  m s = (s1, Ok a) -> bind m k s = k a s1.
Proof. unfold bind. intros ->. reflexivity. Qed.

Lemma bind_throw {S A B} (m : M S A) (k : A -> M S B) s s1 e :
  m s = (s1, Throw e) -> bind m k s = (s1, Throw e).
Proof. unfold bind. intros ->. reflexivity. Qed.

Lemma forEach_app {S A} (xs ys : list A) (f : A -> M S unit) s :
  forEach (xs ++ ys) f s = (forEach xs f ;; forEach ys f) s.
Proof.
  revert s. induction xs as [|x xs IH]; intro s; simpl.
  - reflexivity.
  - unfold bind in *. destruct (f x s) as [s1 [[]|e]]; [apply IH | reflexivity].
Qed.

(** ** The undo engine *)

Section UndoFacts.
Import Dom UndoEngine.

Variable h : PluginEvent -> bool -> Call unit.

(** A nested invocation is its callback and nothing more. *)
Lemma runWithUndo_nested (cb : option (Call unit)) (cs : option string)
    (gd : option (Call Any)) (c : EditorCore) :
  suspendUndo c = true ->
  runWithUndo h cb cs gd c = callOpt cb c.
Proof.
  intro Hs. unfold runWithUndo, bind, gets, when, try_finally, ret. rewrite Hs. simpl.
  destruct cb as [f|]; simpl; [|reflexivity].
  destruct (f c) as [c1 [[]|e]]; reflexivity.
Qed.

(** An outermost invocation, branch by branch. *)
Lemma runWithUndo_outermost (cb : Call unit) (cs : option string)
    (gd : option (Call Any)) (c : EditorCore) :
  suspendUndo c = false ->
  runWithUndo h (Some cb) cs gd c =
    match cb (entered c) with
    | (c1, Throw e) => (set_suspendUndo false c1, Throw e)
    | (c1, Ok _) =>
        if truthy cs then
          match getData gd (snapshot c1) with
          | (c3, Throw e) => (set_suspendUndo false c3, Throw e)
          | (c3, Ok d) =>
              let (c4, r) :=
                h (contentChanged cs d) true (logged (contentChanged cs d) true c3) in
              (set_suspendUndo false c4, r)
          end
        else (set_suspendUndo false (snapshot c1), Ok tt)
    end.
Proof.
  intro Hs.
  unfold runWithUndo, bind, gets, when, try_finally, ret, modify, undo_addUndoSnapshot.
  rewrite Hs. simpl. fold (snapshot c). fold (entered c).
  destruct (cb (entered c)) as [c1 [[]|e]]; [|reflexivity].
  fold (snapshot c1). destruct (truthy cs); [|reflexivity].
  unfold api_triggerEvent, bind, modify.
  destruct (getData gd (snapshot c1)) as [c3 [d|e]]; [|reflexivity].
  fold (contentChanged cs d). fold (logged (contentChanged cs d) true c3).
  destruct (h (contentChanged cs d) true (logged (contentChanged cs d) true c3)) as [c4 r].
  reflexivity.
Qed.

(** *** Calls that respect suppression *)

Lemma Suppressed_ret {A} (a : A) : Suppressed (ret a).
Proof. intros c Hc. split; [exact Hc | reflexivity]. Qed.

Lemma Suppressed_throw {A} (e : Exn) : Suppressed (@throw _ A e).
Proof. intros c Hc. split; [exact Hc | reflexivity]. Qed.

Lemma Suppressed_edit (f : Node -> Node) : Suppressed (edit f).
Proof. intros c Hc. split; [exact Hc | reflexivity]. Qed.

Lemma Suppressed_bind {A B} (m : Call A) (k : A -> Call B) :
  Suppressed m -> (forall a, Suppressed (k a)) -> Suppressed (bind m k).
Proof.
  intros Hm Hk c Hc. unfold bind.
  destruct (Hm c Hc) as [Hs Hu]. destruct (m c) as [c1 [a|e]]; simpl in *.
  - destruct (Hk a c1 Hs) as [Hs' Hu']. split; [exact Hs' | congruence].
  - split; assumption.
Qed.

Lemma Suppressed_addUndoSnapshot : Suppressed Editor_addUndoSnapshot.
Proof.
  intros c Hc. unfold Editor_addUndoSnapshot, bind, gets, when. rewrite Hc.
  split; [exact Hc | reflexivity].
Qed.

(** Helpers that wrap their own mutation in [runWithUndo] respect
    suppression, at any depth of nesting. *)
Lemma Suppressed_runWithUndo cb cs gd :
  Suppressed cb -> Suppressed (runWithUndo h (Some cb) cs gd).
Proof.
  intros Hcb c Hc. rewrite (runWithUndo_nested (Some cb) cs gd c Hc). exact (Hcb c Hc).
Qed.

(** The deprecated [runWithoutAddingUndoSnapshot] does not: it leaves the
    flag cleared whatever it was on entry. *)
Lemma runWithoutAddingUndoSnapshot_clears cb c :
  suspendUndo (fst (Editor_runWithoutAddingUndoSnapshot cb c)) = false.
Proof.
  unfold Editor_runWithoutAddingUndoSnapshot, try_finally, bind, modify.
  destruct (cb (set_suspendUndo true c)) as [c1 [[]|e]]; reflexivity.
Qed.

Lemma Suppressed_getData gd :
  (forall g, gd = Some g -> Suppressed g) -> Suppressed (getData gd).
Proof.
  intro Hg. destruct gd as [g|]; simpl.
  - apply Suppressed_bind; [apply Hg; reflexivity | intro; apply Suppressed_ret].
  - apply Suppressed_ret.
Qed.

(** An outermost invocation over calls that respect suppression hands the
    undo service the content before the callback and, when the callback
    returns, the content after it; nothing else. *)
Lemma runWithUndo_one_pair (cb : Call unit) (cs : option string) (gd : option (Call Any))
    (c : EditorCore) :
  suspendUndo c = false ->
  Suppressed cb ->
  (forall g, gd = Some g -> Suppressed g) ->
  (forall ev b, Suppressed (h ev b)) ->
  undo (fst (runWithUndo h (Some cb) cs gd c)) =
    undo c ++ contentDiv c ::
      match snd (cb (entered c)) with
      | Ok _ => [contentDiv (fst (cb (entered c)))]
      | Throw _ => []
      end.
Proof.
  intros Hc Hcb Hgd Hh.
  rewrite (runWithUndo_outermost cb cs gd c Hc).
  destruct (Hcb (entered c) eq_refl) as [Hs1 Hu1].
  destruct (cb (entered c)) as [c1 [[]|e]]; simpl in *.
  2: { rewrite Hu1. reflexivity. }
  assert (Hu2 : undo (snapshot c1) = undo c ++ [contentDiv c; contentDiv c1]).
  { simpl. rewrite Hu1. simpl. rewrite <- app_assoc. reflexivity. }
  destruct (truthy cs); [|exact Hu2].
  destruct (Suppressed_getData gd Hgd (snapshot c1) Hs1) as [Hs3 Hu3].
  destruct (getData gd (snapshot c1)) as [c3 [d|e]]; simpl in *.
  2: { rewrite Hu3. exact Hu2. }
  destruct (Hh (contentChanged cs d) true (logged (contentChanged cs d) true c3) Hs3)
    as [_ Hu4].
  destruct (h (contentChanged cs d) true (logged (contentChanged cs d) true c3)) as [c4 r].
  simpl in *. rewrite Hu4, Hu3. exact Hu2.
Qed.

(** X5. The nesting rule. A [runWithUndo] called during another
    [runWithUndo]'s callback (after [pre], before [post]) finds the
    suppression flag set and is exactly its own callback: it adds neither
    a before- nor an after-snapshot. The compound edit hands the undo
    service one pair of snapshots, the content before the outer callback
    and the content after it (only the first when the callback throws).
    The callbacks, the data callback and the plugins are calls that
    respect suppression: edits, [Editor.addUndoSnapshot], and helpers that
    wrap their own edit in [runWithUndo]. *)
Lemma runWithUndo_nested_single_pair (pre inner post : Call unit) (cs1 cs2 : option string)
    (gd1 gd2 : option (Call Any)) (c : EditorCore) :
  suspendUndo c = false ->
  Suppressed pre -> Suppressed inner -> Suppressed post ->
  (forall g, gd1 = Some g -> Suppressed g) ->
  (forall ev b, Suppressed (h ev b)) ->
  let nested := runWithUndo h (Some inner) cs2 gd2 in
  let compound := pre ;; nested ;; post in
  let reached := fst (pre (entered c)) in
  (suspendUndo reached = true /\
   nested reached = inner reached /\
   undo (fst (nested reached)) = undo reached) /\
  undo (fst (runWithUndo h (Some compound) cs1 gd1 c)) =
    undo c ++ contentDiv c ::
      match snd (compound (entered c)) with
      | Ok _ => [contentDiv (fst (compound (entered c)))]
      | Throw _ => []
      end.
Proof.
  intros Hc Hpre Hinner Hpost Hgd Hh nested compound reached.
  assert (Hreached : suspendUndo reached = true)
    by exact (proj1 (Hpre (entered c) eq_refl)).
  split.
  - assert (Hn : nested reached = inner reached)
      by exact (runWithUndo_nested (Some inner) cs2 gd2 reached Hreached).
    split; [exact Hreached|]. split; [exact Hn|].
    rewrite Hn. exact (proj2 (Hinner reached Hreached)).
  - apply runWithUndo_one_pair; try assumption.
    apply Suppressed_bind; [exact Hpre|]. intros _.
    apply Suppressed_bind; [|intros _; exact Hpost].
    apply Suppressed_runWithUndo. exact Hinner.
Qed.

(** C2. When the callback of an outermost [runWithUndo] throws, the
    exception reaches the caller, the suppression flag is cleared, the
    undo service keeps what it held when the callback stopped (which
    starts with the before-snapshot), and no after-snapshot is taken and
    no event is dispatched. *)
Theorem runWithUndo_callback_throws (cb : Call unit) (cs : option string)
    (gd : option (Call Any)) (c c1 : EditorCore) (e : Exn) :
  suspendUndo c = false ->
  cb (entered c) = (c1, Throw e) ->
  let final := fst (runWithUndo h (Some cb) cs gd c) in
  snd (runWithUndo h (Some cb) cs gd c) = Throw e /\
  suspendUndo final = false /\
  undo (entered c) = undo c ++ [contentDiv c] /\
  undo final = undo c1 /\
  (forall later, undo c1 = undo (entered c) ++ later ->
                 undo final = undo c ++ contentDiv c :: later) /\
  dispatched final = dispatched c1 /\
  contentDiv final = contentDiv c1.
Proof.
  intros Hc Hcb final. subst final.
  rewrite (runWithUndo_outermost cb cs gd c Hc), Hcb. simpl.
  repeat split.
  intros later ->. rewrite <- app_assoc. reflexivity.
Qed.

Lemma getData_dataFrom (gd : option (Call Any)) (c2 c3 : EditorCore) (d : option Any) :
  getData gd c2 = (c3, Ok d) <-> dataFrom gd c2 c3 d.
Proof.
  destruct gd as [g|]; simpl; unfold bind, ret.
  - destruct (g c2) as [c' [v|e]]; split.
    + intro H. inversion H. subst. exists v. split; reflexivity.
    + intros (v' & Hv & ->). inversion Hv. reflexivity.
    + discriminate.
    + intros (v' & Hv & _). discriminate.
  - split.
    + intro H. inversion H. split; reflexivity.
    + intros [-> ->]. reflexivity.
Qed.

Lemma Quiet_getData (gd : option (Call Any)) :
  (forall g, gd = Some g -> Quiet g) -> Quiet (getData gd).
Proof.
  intros Hg c. destruct gd as [g|]; simpl; [|reflexivity].
  unfold bind, ret. specialize (Hg g eq_refl c).
  destruct (g c) as [c' [v|e]]; exact Hg.
Qed.

Lemma app_singleton_neq {A} (l : list A) (x : A) : l <> l ++ [x].
Proof.
  intro H. apply (f_equal (@List.length A)) in H. rewrite length_app in H. simpl in H. lia.
Qed.

(** What the list of dispatched events shows when the callback, the data
    callback and the plugins dispatch nothing themselves: it gains the
    one broadcast [ContentChanged] event exactly when the invocation is
    the outermost one, [changeSource] is non-empty, a callback was given
    and returned, and [getDataCallback], when given, returned as well; in
    every other case it is as it was. *)
Lemma runWithUndo_quiet_log (cb : option (Call unit)) (cs : option string)
    (gd : option (Call Any)) (c : EditorCore) :
  (forall f, cb = Some f -> Quiet f) ->
  (forall g, gd = Some g -> Quiet g) ->
  (forall ev b, Quiet (h ev b)) ->
  let final := fst (runWithUndo h cb cs gd c) in
  (forall ev,
     notifies c final ev <->
     suspendUndo c = false /\ truthy cs = true /\
     exists f c1 c3 d,
       cb = Some f /\ f (entered c) = (c1, Ok tt) /\
       dataFrom gd (snapshot c1) c3 d /\ ev = contentChanged cs d) /\
  ((forall ev, ~ notifies c final ev) -> dispatched final = dispatched c).
Proof.
  intros Hcb Hgd Hh final. subst final. unfold notifies.
  destruct (suspendUndo c) eqn:Hs.
  - (* nested: the invocation is its callback *)
    rewrite (runWithUndo_nested cb cs gd c Hs).
    assert (Hq : dispatched (fst (callOpt cb c)) = dispatched c).
    { destruct cb as [f|]; simpl; [apply (Hcb f eq_refl) | reflexivity]. }
    rewrite Hq. split; [|reflexivity].
    intro ev. split.
    + intro H. exfalso. exact (@app_singleton_neq _ _ _ H).
    + intros [H _]. discriminate.
  - destruct cb as [f|].
    2: { (* no callback: only the flag is set and cleared *)
      unfold runWithUndo, bind, gets, when, try_finally, ret, modify, undo_addUndoSnapshot.
      rewrite Hs. simpl. split; [|reflexivity].
      intro ev. split.
      + intro H. exfalso. exact (@app_singleton_neq _ _ _ H).
      + intros (_ & _ & f & c1 & c3 & d & Hf & _). discriminate. }
    rewrite (runWithUndo_outermost f cs gd c Hs).
    pose proof (Hcb f eq_refl (entered c)) as Hq1.
    destruct (f (entered c)) as [c1 [[]|e]] eqn:Hf; simpl in Hq1.
    2: { simpl. rewrite Hq1. split; [|reflexivity].
         intro ev. split.
         + intro H. exfalso. exact (@app_singleton_neq _ _ _ H).
         + intros (_ & _ & f' & c1' & c3 & d & Hf' & Hrun & _).
           inversion Hf'. subst f'. rewrite Hf in Hrun. discriminate. }
    destruct (truthy cs) eqn:Hcs.
    2: { simpl. rewrite Hq1. split; [|reflexivity].
         intro ev. split.
         + intro H. exfalso. exact (@app_singleton_neq _ _ _ H).
         + intros (_ & H & _). discriminate. }
    pose proof (@Quiet_getData gd Hgd (snapshot c1)) as Hq3.
    destruct (getData gd (snapshot c1)) as [c3 [d|e]] eqn:Hd; simpl in Hq3.
    2: { simpl. rewrite Hq3, Hq1. split; [|reflexivity].
         intro ev. split.
         + intro H. exfalso. exact (@app_singleton_neq _ _ _ H).
         + intros (_ & _ & f' & c1' & c3' & d & Hf' & Hrun & Hdata & _).
           inversion Hf'. subst f'. rewrite Hf in Hrun. inversion Hrun. subst c1'.
           apply getData_dataFrom in Hdata. rewrite Hd in Hdata. discriminate. }
    pose proof (Hh (contentChanged cs d) true (logged (contentChanged cs d) true c3)) as Hq4.
    destruct (h (contentChanged cs d) true (logged (contentChanged cs d) true c3)) as [c4 r].
    simpl in *. rewrite Hq4, Hq3, Hq1.
    split.
    + intro ev. split.
      * intro H. apply app_inv_head in H. inversion H. subst ev.
        split; [reflexivity|]. split; [reflexivity|].
        exists f, c1, c3, d.
        split; [reflexivity|]. split; [exact Hf|].
        split; [apply getData_dataFrom; exact Hd | reflexivity].
      * intros (_ & _ & f' & c1' & c3' & d' & Hf' & Hrun & Hdata & ->).
        inversion Hf'. subst f'. rewrite Hf in Hrun. inversion Hrun. subst c1'.
        apply getData_dataFrom in Hdata. rewrite Hd in Hdata. inversion Hdata.
        reflexivity.
    + intro Hno. exfalso. exact (Hno (contentChanged cs d) eq_refl).
Qed.

End UndoFacts.

(** *** The notification *)

Section NotificationFacts.
Import Dom UndoEngine.

Lemma PluginEvent_eq_dec (a b : PluginEvent) : {a = b} + {a <> b}.
Proof. unfold Any in *. repeat decide equality. Qed.

(** An invocation that is the same whatever the plugins do fires
    nothing. *)
Lemma constant_run_fires_nothing (run : Invocation) (k : EditorCore * outcome unit) :
  (forall h, run h = k) -> forall ev c3, ~ fires run ev c3.
Proof.
  intros Hk ev c3 Hf.
  pose proof (Hf (fun _ _ => ret tt)) as H1.
  pose proof (Hf (fun _ _ => throw TypeError)) as H2.
  rewrite Hk in H1, H2. rewrite H1 in H2. cbn in H2. discriminate H2.
Qed.

(** Two notifications that every plugin handles alike are the same event
    on the same core. *)
Lemma fires_unique (ev ev' : PluginEvent) (c3 c3' : EditorCore) :
  (forall h : Handler,
     (set_suspendUndo false (fst (h ev true (logged ev true c3))),
      snd (h ev true (logged ev true c3)))
     = (set_suspendUndo false (fst (h ev' true (logged ev' true c3'))),
        snd (h ev' true (logged ev' true c3')))) ->
  ev = ev' /\ c3 = c3'.
Proof.
  intro H.
  assert (Hev : ev = ev').
  { pose proof (H (fun e _ s => (s, if PluginEvent_eq_dec e ev then Ok tt
                                     else Throw TypeError))) as Hp.
    cbn in Hp.
    destruct (PluginEvent_eq_dec ev ev) as [_|Hne]; [|contradiction].
    destruct (PluginEvent_eq_dec ev' ev) as [E|_]; [symmetry; exact E|].
    discriminate Hp. }
  subst ev'. split; [reflexivity|].
  pose proof (H (fun _ _ => ret tt)) as H1.
  pose proof (H (fun _ _ s => (s, if suspendUndo s then Ok tt else Throw TypeError))) as H2.
  destruct c3 as [n u b d], c3' as [n' u' b' d'].
  cbn in H1, H2. injection H1 as Hn Hu Hd. apply app_inv_tail in Hd.
  subst. f_equal. destruct b, b'; first [reflexivity | discriminate H2].
Qed.

(** C4, as the code has it. An invocation of [runWithUndo], taken as a
    function of what the plugins do, fires the notification [ev] exactly
    when it is the outermost one, [changeSource] is non-empty, a callback
    was given and returned, and [getDataCallback], when given, returned
    as well; [ev] is then the [ContentChanged] event with [changeSource]
    as source and the value [getDataCallback] returned as data
    (undefined without one), handed over broadcast on the core the data
    callback left. When nothing is fired the plugins are not reached and
    the list of dispatched events is as the callbacks left it. When
    [getDataCallback] throws, nothing is fired and the invocation throws
    what it threw, the flag cleared and the core otherwise as the data
    callback left it. The callbacks and the plugins are arbitrary. *)
Theorem runWithUndo_notifies_iff (cb : option (Call unit)) (cs : option string)
    (gd : option (Call Any)) (c : EditorCore) :
  let run : Invocation := fun h => runWithUndo h cb cs gd c in
  (forall ev c3,
     fires run ev c3 <->
     suspendUndo c = false /\ truthy cs = true /\
     exists f c1 d,
       cb = Some f /\ f (entered c) = (c1, Ok tt) /\
       dataFrom gd (snapshot c1) c3 d /\ ev = contentChanged cs d) /\
  ((forall ev c3, ~ fires run ev c3) ->
   bypasses run /\
   forall h, dispatched (fst (run h)) = dispatched (leftByCallbacks cb cs gd c)) /\
  (forall f c1 g c3 e,
     suspendUndo c = false -> truthy cs = true ->
     cb = Some f -> f (entered c) = (c1, Ok tt) ->
     gd = Some g -> g (snapshot c1) = (c3, Throw e) ->
     (forall ev c3', ~ fires run ev c3') /\
     forall h, run h = (set_suspendUndo false c3, Throw e)).
Proof.
  intro run.
  assert (Hclass :
    (exists f c1 c3 d,
       (suspendUndo c = false /\ truthy cs = true /\ cb = Some f /\
        f (entered c) = (c1, Ok tt) /\ getData gd (snapshot c1) = (c3, Ok d)) /\
       fires run (contentChanged cs d) c3)
    \/
    ((exists k, forall h, run h = k) /\
     (forall h, dispatched (fst (run h)) = dispatched (leftByCallbacks cb cs gd c)) /\
     ~ (suspendUndo c = false /\ truthy cs = true /\
        exists f c1 c3 d,
          cb = Some f /\ f (entered c) = (c1, Ok tt) /\
          getData gd (snapshot c1) = (c3, Ok d)))).
  { subst run. unfold leftByCallbacks. destruct (suspendUndo c) eqn:Hs.
    - (* nested *)
      right. split; [|split].
      + exists (callOpt cb c). intro h. apply runWithUndo_nested. exact Hs.
      + intro h. cbn beta. rewrite (runWithUndo_nested h cb cs gd c Hs). reflexivity.
      + intros [H _]. discriminate H.
    - destruct cb as [f|].
      2: { (* no callback *)
        assert (E : forall h, runWithUndo h None cs gd c
                              = (set_suspendUndo false (snapshot c), Ok tt)).
        { intro h.
          unfold runWithUndo, bind, gets, when, try_finally, ret, modify,
            undo_addUndoSnapshot.
          rewrite Hs. reflexivity. }
        right. split; [|split].
        - exists (set_suspendUndo false (snapshot c), Ok tt). exact E.
        - intro h. cbn beta. rewrite E. reflexivity.
        - intros (_ & _ & f & c1 & c3 & d & Hf & _). discriminate Hf. }
      destruct (f (entered c)) as [c1 [[]|e]] eqn:Hf.
      2: { (* the callback throws *)
        assert (E : forall h, runWithUndo h (Some f) cs gd c
                              = (set_suspendUndo false c1, Throw e)).
        { intro h. rewrite (runWithUndo_outermost h f cs gd c Hs), Hf. reflexivity. }
        right. split; [|split].
        - exists (set_suspendUndo false c1, Throw e). exact E.
        - intro h. cbn beta. rewrite E. reflexivity.
        - intros (_ & _ & f' & c1' & c3 & d & Hf' & Hrun & _).
          inversion Hf'. subst f'. rewrite Hf in Hrun. discriminate Hrun. }
      destruct (truthy cs) eqn:Hcs.
      2: { (* no change source *)
        assert (E : forall h, runWithUndo h (Some f) cs gd c
                              = (set_suspendUndo false (snapshot c1), Ok tt)).
        { intro h. rewrite (runWithUndo_outermost h f cs gd c Hs), Hf, Hcs. reflexivity. }
        right. split; [|split].
        - exists (set_suspendUndo false (snapshot c1), Ok tt). exact E.
        - intro h. cbn beta. rewrite E. reflexivity.
        - intros (_ & H & _). discriminate H. }
      destruct (getData gd (snapshot c1)) as [c3 [d|e]] eqn:Hd.
      2: { (* the data callback throws *)
        assert (E : forall h, runWithUndo h (Some f) cs gd c
                              = (set_suspendUndo false c3, Throw e)).
        { intro h. rewrite (runWithUndo_outermost h f cs gd c Hs), Hf, Hcs, Hd.
          reflexivity. }
        right. split; [|split].
        - exists (set_suspendUndo false c3, Throw e). exact E.
        - intro h. cbn beta. rewrite E. reflexivity.
        - intros (_ & _ & f' & c1' & c3' & d & Hf' & Hrun & Hdata).
          inversion Hf'. subst f'. rewrite Hf in Hrun. inversion Hrun. subst c1'.
          rewrite Hd in Hdata. discriminate Hdata. }
      (* the event is built and handed over *)
      left. exists f, c1, c3, d. split; [repeat split; assumption|].
      intro h. rewrite (runWithUndo_outermost h f cs gd c Hs), Hf, Hcs, Hd.
      destruct (h (contentChanged cs d) true (logged (contentChanged cs d) true c3));
        reflexivity. }
  split; [|split].
  - intros ev c3'. destruct Hclass as [(f & c1 & c3 & d & Hcond & Hfires)|(Hk & _ & Hnot)].
    + destruct Hcond as (Hs & Hcs & Hcb & Hf & Hd). split.
      * intro H.
        destruct (fires_unique ev (contentChanged cs d) c3' c3) as [-> ->].
        { intro h. rewrite <- (H h). apply Hfires. }
        split; [exact Hs|]. split; [exact Hcs|].
        exists f, c1, d. split; [exact Hcb|]. split; [exact Hf|].
        split; [apply getData_dataFrom; exact Hd | reflexivity].
      * intros (_ & _ & f' & c1' & d' & Hcb' & Hf' & Hdata & ->).
        rewrite Hcb in Hcb'. inversion Hcb'. subst f'.
        rewrite Hf in Hf'. inversion Hf'. subst c1'.
        apply getData_dataFrom in Hdata. rewrite Hd in Hdata. inversion Hdata.
        subst. exact Hfires.
    + destruct Hk as [k Hk]. split.
      * intro H. exfalso. exact (constant_run_fires_nothing run k Hk ev c3' H).
      * intros (Hs & Hcs & f & c1 & d & Hcb & Hf & Hdata & _). exfalso. apply Hnot.
        split; [exact Hs|]. split; [exact Hcs|]. exists f, c1, c3', d.
        split; [exact Hcb|]. split; [exact Hf|]. apply getData_dataFrom. exact Hdata.
  - intro Hnone. destruct Hclass as [(f & c1 & c3 & d & _ & Hfires)|(Hk & Hlog & _)].
    + exfalso. exact (Hnone _ _ Hfires).
    + split; [|exact Hlog]. destruct Hk as [k Hk]. intros h h'. rewrite !Hk. reflexivity.
  - intros f c1 g c3 e Hs Hcs Hcb Hf Hgd Hg.
    assert (E : forall h, run h = (set_suspendUndo false c3, Throw e)).
    { intro h. subst run cb gd. cbn beta.
      rewrite (runWithUndo_outermost h f cs (Some g) c Hs), Hf, Hcs.
      unfold getData, bind. rewrite Hg. reflexivity. }
    split; [|exact E].
    exact (constant_run_fires_nothing run _ E).
Qed.

End NotificationFacts.


(** *** The undo engine on the example core *)

Section UndoExamples.
Import Dom UndoEngine Scenario.

Lemma Suppressed_optional (g0 : Call Any) :
  Suppressed g0 -> forall g, Some g0 = Some g -> Suppressed g.
Proof. intros H g E. inversion E. subst. exact H. Qed.

Lemma Quiet_optional {A} (g0 : Call A) :
  Quiet g0 -> forall g, Some g0 = Some g -> Quiet g.
Proof. intros H g E. inversion E. subst. exact H. Qed.

Lemma Quiet_edit (f : Node -> Node) : Quiet (edit f).
Proof. intro c. reflexivity. Qed.

Lemma Quiet_ret {A} (a : A) : Quiet (ret a).
Proof. intro c. reflexivity. Qed.

(** A format command that asks for a snapshot, then calls a helper that
    wraps its own edit: the undo service is handed the content before and
    the content after, once each, even with a plugin that asks for a
    snapshot on every event. *)
Lemma runWithUndo_nested_single_pair_example :
  (suspendUndo (fst (Editor_addUndoSnapshot (entered idleCore))) = true /\
   runWithUndo snapshotOnEvent (Some dropSecond) (Some "Format") None
     (fst (Editor_addUndoSnapshot (entered idleCore)))
   = dropSecond (fst (Editor_addUndoSnapshot (entered idleCore))) /\
   undo (fst (runWithUndo snapshotOnEvent (Some dropSecond) (Some "Format") None
                (fst (Editor_addUndoSnapshot (entered idleCore)))))
   = [twoParagraphs]) /\
  undo (fst (runWithUndo snapshotOnEvent
               (Some (Editor_addUndoSnapshot ;;
                      runWithUndo snapshotOnEvent (Some dropSecond) (Some "Format") None ;;
                      ret tt))
               (Some "Format") (Some someData) idleCore))
    = [twoParagraphs; oneParagraph].
Proof.
  exact (runWithUndo_nested_single_pair snapshotOnEvent Editor_addUndoSnapshot dropSecond
           (ret tt) (Some "Format") (Some "Format") (Some someData) None idleCore
           eq_refl Suppressed_addUndoSnapshot (Suppressed_edit _) (Suppressed_ret tt)
           (Suppressed_optional _ (Suppressed_ret _))
           (fun _ _ => Suppressed_addUndoSnapshot)).
Defined.

(** An edit followed by a failure: the exception comes out, the flag is
    cleared, and the undo service holds the before-snapshot only. *)
Lemma runWithUndo_callback_throws_witness :
  snd (runWithUndo noPlugins (Some (dropSecond ;; failing)) (Some "Format") None idleCore)
    = Throw (Error "failed") /\
  suspendUndo (fst (runWithUndo noPlugins (Some (dropSecond ;; failing)) (Some "Format") None
                      idleCore)) = false /\
  undo (fst (runWithUndo noPlugins (Some (dropSecond ;; failing)) (Some "Format") None
               idleCore)) = [twoParagraphs] /\
  dispatched (fst (runWithUndo noPlugins (Some (dropSecond ;; failing)) (Some "Format") None
                     idleCore)) = [].
Proof.
  pose proof (@runWithUndo_callback_throws noPlugins (dropSecond ;; failing)
                (Some "Format") None idleCore _ (Error "failed") eq_refl eq_refl) as H.
  simpl in H. destruct H as (H1 & H2 & _ & H4 & _ & H6 & _).
  exact (conj H1 (conj H2 (conj H4 H6))).
Defined.

(** C4 as stated fails: an outermost invocation with a non-empty change
    source whose callback completed dispatches nothing when
    [getDataCallback] throws. *)
Lemma runWithUndo_data_callback_throws_no_event :
  (suspendUndo idleCore = false /\
   fst (dropSecond (entered idleCore)) = set_contentDiv oneParagraph (entered idleCore) /\
   snd (dropSecond (entered idleCore)) = Ok tt /\
   truthy (Some "Format") = true) /\
  runWithUndo noPlugins (Some dropSecond) (Some "Format") (Some failing) idleCore
    = (mkCore oneParagraph [twoParagraphs; oneParagraph] false [], Throw (Error "failed")) /\
  dispatched (fst (runWithUndo noPlugins (Some dropSecond) (Some "Format") (Some failing)
                     idleCore)) = dispatched idleCore.
Proof. repeat split. Qed.

(** The same edit with a data callback that returns: the plugin is handed
    one broadcast [ContentChanged] event carrying the source and the
    data, on the core that holds both snapshots. *)
Lemma runWithUndo_notifies_iff_witness :
  runWithUndo snapshotOnEvent (Some dropSecond) (Some "Format") (Some someData) idleCore
    = (mkCore oneParagraph [twoParagraphs; oneParagraph] false
         [(mkEvent ContentChanged (Some "Format") (Some "payload"), true)],
       Ok tt).
Proof.
  exact (proj2 (proj1 (runWithUndo_notifies_iff (Some dropSecond) (Some "Format")
                         (Some someData) idleCore)
                  (mkEvent ContentChanged (Some "Format") (Some "payload"))
                  (snapshot (set_contentDiv oneParagraph (entered idleCore))))
           (conj eq_refl (conj eq_refl
              (ex_intro _ dropSecond
                 (ex_intro _ (set_contentDiv oneParagraph (entered idleCore))
                    (ex_intro _ (Some "payload")
                       (conj eq_refl (conj eq_refl
                          (conj (ex_intro _ "payload" (conj eq_refl eq_refl))
                             eq_refl))))))))
           snapshotOnEvent).
Defined.


(** C1. The nesting rule breaks once the outer callback has called the
    deprecated [Editor.runWithoutAddingUndoSnapshot]: its [finally] clause
    clears the flag the outer [runWithUndo] had set, so the [runWithUndo]
    called next in the same callback is not treated as nested. It takes a
    before- and an after-snapshot of its own: the undo service is called
    four times, and the edit before it and the edit inside it end up in
    two undo steps. *)
Theorem runWithUndo_nested_after_flag_reset :
  suspendUndo
    (fst ((dropSecond ;; Editor_runWithoutAddingUndoSnapshot (ret tt)) (entered idleCore)))
    = false /\
  undo (fst (runWithUndo noPlugins (Some clearAll) None None
               (fst ((dropSecond ;; Editor_runWithoutAddingUndoSnapshot (ret tt))
                       (entered idleCore)))))
    = [twoParagraphs; oneParagraph; emptyContent] /\
  undo (fst (runWithUndo noPlugins
               (Some (dropSecond ;;
                      Editor_runWithoutAddingUndoSnapshot (ret tt) ;;
                      runWithUndo noPlugins (Some clearAll) None None))
               None None idleCore))
    = [twoParagraphs; oneParagraph; emptyContent; emptyContent].
Proof. repeat split. Qed.

(** The same compound edit without the deprecated call: one pair. *)
Lemma runWithUndo_nested_without_flag_reset :
  undo (fst (runWithUndo noPlugins
               (Some (dropSecond ;; runWithUndo noPlugins (Some clearAll) None None))
               None None idleCore))
    = [twoParagraphs; emptyContent].
Proof. reflexivity. Qed.

(** C10. When the callback has gone through the deprecated
    [Editor.runWithoutAddingUndoSnapshot], the flag is already cleared as
    the [ContentChanged] event is dispatched: a plugin that edits and
    calls [editor.addUndoSnapshot()] while handling it adds a third
    snapshot. *)
Theorem notification_after_flag_reset :
  suspendUndo
    (logged (contentChanged (Some "Format") None) true
       (snapshot (fst (Editor_runWithoutAddingUndoSnapshot dropSecond (entered idleCore)))))
    = false /\
  undo (fst (runWithUndo clearOnEvent (Some (Editor_runWithoutAddingUndoSnapshot dropSecond))
               (Some "Format") None idleCore))
    = [twoParagraphs; oneParagraph; emptyContent].
Proof. split; reflexivity. Qed.

(** The same plugin after a callback that left the flag alone adds
    nothing. *)
Lemma notification_without_flag_reset :
  undo (fst (runWithUndo clearOnEvent (Some dropSecond) (Some "Format") None idleCore))
    = [twoParagraphs; oneParagraph].
Proof. reflexivity. Qed.

End UndoExamples.

(** ** The editor's life cycle *)

Section LifecycleFacts.
Import Lifecycle.

Context {W V : Type}.
Variable api_triggerEvent : PluginEvent -> bool -> M W unit.
Variable win_clearInterval : Z -> W -> W.
Variable resetContentEditable : W -> W.

Local Abbreviation Disposer := (@Disposer W).
Local Abbreviation EditorPlugin := (@EditorPlugin W).
Local Abbreviation CustomData := (@CustomData W V).
Local Abbreviation Host := (@Host W V).
Local Abbreviation Editor := (@Editor W V).
Local Abbreviation EditorCore := (@EditorCore W V).

Lemma forEach_inWorld {A} (xs : list A) (f : A -> Disposer) (h : Host) :
  forEach xs (fun x => inWorld (f x)) h =
    (let (w, r) := runAll (map f xs) (world h) in (mkHost (this h) w, r)).
Proof.
  unfold runAll. revert h. induction xs as [|x xs IH]; intro h; simpl.
  - destruct h; reflexivity.
  - unfold bind, inWorld at 1. destruct (f x (world h)) as [w1 [[]|e]]; [|reflexivity].
    rewrite IH. reflexivity.
Qed.

Lemma bind_forEach_inWorld {A B} (xs : list A) (f : A -> Disposer) (k : unit -> M Host B)
    (ed : Editor) (w : W) :
  bind (forEach xs (fun x => inWorld (f x))) k (mkHost ed w) =
    match runAll (map f xs) w with
    | (w', Ok _) => k tt (mkHost ed w')
    | (w', Throw e) => (mkHost ed w', Throw e)
    end.
Proof.
  unfold bind at 1. rewrite forEach_inWorld. cbn [world this].
  destruct (runAll (map f xs) w) as [w' [[]|e]]; reflexivity.
Qed.

Lemma runAll_app (before after : list Disposer) (w : W) :
  runAll (before ++ after) w =
    match runAll before w with
    | (w', Ok _) => runAll after w'
    | (w', Throw e) => (w', Throw e)
    end.
Proof.
  unfold runAll. rewrite forEach_app. unfold bind at 1.
  destruct (forEach before (fun d => d) w) as [w' [[]|e]]; reflexivity.
Qed.

Lemma delete_fresh (key : string) (o : list (string * option CustomData)) :
  ~ In key (map fst o) -> delete key o = o.
Proof.
  induction o as [|[k d] o IH]; simpl; intro Hn; [reflexivity|].
  destruct (String.eqb_spec k key) as [->|Hk].
  - exfalso. apply Hn. left. reflexivity.
  - simpl. f_equal. apply IH. intro Hin. apply Hn. right. exact Hin.
Qed.

(** One round of the custom data loop, on the first remaining key. *)
Lemma disposeCustomData_head (k : string) (d : option CustomData)
    (rest : list (string * option CustomData)) (ps : list EditorPlugin) (idle : Z)
    (eds : option (list Disposer)) (omit : bool) (w : W) :
  ~ In k (map fst rest) ->
  disposeCustomData k (mkHost (mkEditor (Some (mkCore ps ((k, d) :: rest) idle)) eds omit) w) =
    match runAll (customDisposers [(k, d)]) w with
    | (w1, Ok _) => (mkHost (mkEditor (Some (mkCore ps rest idle)) eds omit) w1, Ok tt)
    | (w1, Throw e) =>
        (mkHost (mkEditor (Some (mkCore ps ((k, d) :: rest) idle)) eds omit) w1, Throw e)
    end.
Proof.
  intro Hk.
  unfold disposeCustomData, update_core, this_core, bind, inWorld, modify, ret, runAll. simpl.
  rewrite String.eqb_refl.
  destruct d as [[v [f|]]|]; simpl.
  - unfold bind, ret. destruct (f v w) as [w1 [[]|e]]; simpl; [|reflexivity].
    rewrite String.eqb_refl. simpl. fold (delete k rest).
    rewrite (@delete_fresh k rest Hk). reflexivity.
  - rewrite String.eqb_refl. simpl. fold (delete k rest).
    rewrite (@delete_fresh k rest Hk). reflexivity.
  - rewrite String.eqb_refl. simpl. fold (delete k rest).
    rewrite (@delete_fresh k rest Hk). reflexivity.
Qed.

(** The custom data loop: the disposers of the entries, in key order, each
    entry deleted once its disposer has returned. *)
Lemma customData_loop (entries : list (string * option CustomData)) :
  NoDup (map fst entries) ->
  forall (ps : list EditorPlugin) (idle : Z) (eds : option (list Disposer)) (omit : bool) (w : W),
    match runAll (customDisposers entries) w with
    | (w', Ok _) =>
        forEach (map fst entries) disposeCustomData
          (mkHost (mkEditor (Some (mkCore ps entries idle)) eds omit) w)
        = (mkHost (mkEditor (Some (mkCore ps [] idle)) eds omit) w', Ok tt)
    | (w', Throw e) =>
        exists left,
          forEach (map fst entries) disposeCustomData
            (mkHost (mkEditor (Some (mkCore ps entries idle)) eds omit) w)
          = (mkHost (mkEditor (Some (mkCore ps left idle)) eds omit) w', Throw e)
    end.
Proof.
  induction entries as [|[k d] rest IH]; intros Hnd ps idle eds omit w.
  - reflexivity.
  - inversion Hnd as [|? ? Hk Hrest]. subst.
    assert (E : forEach (map fst ((k, d) :: rest)) disposeCustomData
                  (mkHost (mkEditor (Some (mkCore ps ((k, d) :: rest) idle)) eds omit) w)
                = match runAll (customDisposers [(k, d)]) w with
                  | (w1, Ok _) =>
                      forEach (map fst rest) disposeCustomData
                        (mkHost (mkEditor (Some (mkCore ps rest idle)) eds omit) w1)
                  | (w1, Throw e) =>
                      (mkHost (mkEditor (Some (mkCore ps ((k, d) :: rest) idle)) eds omit) w1,
                       Throw e)
                  end).
    { cbn [map fst forEach]. unfold bind at 1.
      rewrite (disposeCustomData_head k d rest ps idle eds omit w Hk).
      destruct (runAll (customDisposers [(k, d)]) w) as [w1 [[]|e]]; reflexivity. }
    rewrite E. clear E.
    replace (customDisposers ((k, d) :: rest))
      with (customDisposers [(k, d)] ++ customDisposers rest)
      by (unfold customDisposers; simpl; rewrite app_nil_r; reflexivity).
    rewrite runAll_app.
    destruct (runAll (customDisposers [(k, d)]) w) as [w1 [[]|e]].
    + apply IH. exact Hrest.
    + exists ((k, d) :: rest). reflexivity.
Qed.

Lemma Editor_triggerEvent_live (ev : PluginEvent) (b : bool) (c : EditorCore)
    (eds : option (list Disposer)) (omit : bool) (w : W) :
  Editor_triggerEvent api_triggerEvent ev b (mkHost (mkEditor (Some c) eds omit) w) =
    (let (w1, r) := api_triggerEvent ev b w in (mkHost (mkEditor (Some c) eds omit) w1, r)).
Proof. reflexivity. Qed.

(** [dispose] on a live editor whose [BeforeDispose] event was delivered:
    it stops the idle loop, runs the teardown actions in order up to the
    first throw, and only when all of them returned does it reset the
    content div and null the core. *)
Lemma dispose_runs_teardown (ps : list EditorPlugin)
    (entries : list (string * option CustomData)) (idle : Z) (ds : list Disposer)
    (omit : bool) (w w1 : W) :
  NoDup (map fst entries) ->
  api_triggerEvent (mkEvent BeforeDispose None None) true w = (w1, Ok tt) ->
  match runAll (teardown (mkCore ps entries idle) ds)
          (if 0 <? idle then win_clearInterval idle w1 else w1) with
  | (w3, Ok _) =>
      dispose api_triggerEvent win_clearInterval resetContentEditable
        (mkHost (mkEditor (Some (mkCore ps entries idle)) (Some ds) omit) w)
      = (mkHost (mkEditor None None omit) (if omit then w3 else resetContentEditable w3), Ok tt)
  | (w3, Throw e) =>
      exists ed,
        dispose api_triggerEvent win_clearInterval resetContentEditable
          (mkHost (mkEditor (Some (mkCore ps entries idle)) (Some ds) omit) w)
        = (mkHost ed w3, Throw e) /\ isDisposed ed = false
  end.
Proof.
  intros Hnd Hev.
  set (idle' := if 0 <? idle then 0 else idle).
  set (w2 := if 0 <? idle then win_clearInterval idle w1 else w1).
  unfold dispose.
  erewrite bind_ok; [|rewrite Editor_triggerEvent_live, Hev; reflexivity].
  erewrite bind_ok; [|reflexivity].
  erewrite (bind_ok _ _ _ (mkHost (mkEditor (Some (mkCore ps entries idle')) (Some ds) omit) w2));
    [|unfold idle', w2; cbn [idleLoopHandle]; destruct (0 <? idle); reflexivity].
  erewrite bind_ok; [|reflexivity].
  unfold teardown. cbn [plugins customData].
  rewrite bind_forEach_inWorld, runAll_app.
  destruct (runAll (map plugin_dispose ps) w2) as [wa [[]|e]].
  2: { eexists. split; reflexivity. }
  erewrite bind_ok; [|reflexivity].
  rewrite bind_forEach_inWorld, runAll_app, map_id.
  destruct (runAll ds wa) as [wb [[]|e]].
  2: { eexists. split; reflexivity. }
  erewrite bind_ok; [|reflexivity].
  erewrite bind_ok; [|reflexivity].
  unfold set_this, set_eventDisposers.
  cbn [customData this world core omitContentEditable].
  pose proof (customData_loop entries Hnd ps idle' None omit wb) as Hloop.
  destruct (runAll (customDisposers entries) wb) as [wc [[]|e]].
  - erewrite bind_ok; [|exact Hloop].
    unfold bind, gets, when, inWorld, modify. simpl.
    destruct omit; reflexivity.
  - destruct Hloop as [left Hloop]. eexists.
    erewrite bind_throw; [|exact Hloop]. split; reflexivity.
Qed.

(** C3, as the code has it. [dispose] runs the teardown actions in order:
    every plugin's [dispose], every event disposer, every custom data
    disposer. When all of them return, all have run and the editor is
    disposed. When one throws, the exception leaves [dispose] at once: the
    actions after it are never invoked and the editor is not disposed. *)
Theorem dispose_stops_at_first_throw (ps : list EditorPlugin)
    (entries : list (string * option CustomData)) (idle : Z) (ds : list Disposer)
    (omit : bool) (w w1 : W) :
  NoDup (map fst entries) ->
  api_triggerEvent (mkEvent BeforeDispose None None) true w = (w1, Ok tt) ->
  let live := mkHost (mkEditor (Some (mkCore ps entries idle)) (Some ds) omit) w in
  let w2 := if 0 <? idle then win_clearInterval idle w1 else w1 in
  let actions := teardown (mkCore ps entries idle) ds in
  let result := dispose api_triggerEvent win_clearInterval resetContentEditable live in
  (forall w3,
     runAll actions w2 = (w3, Ok tt) ->
     result = (mkHost (mkEditor None None omit) (if omit then w3 else resetContentEditable w3),
               Ok tt)) /\
  (forall before d after w3 w4 e,
     actions = before ++ d :: after ->
     runAll before w2 = (w3, Ok tt) ->
     d w3 = (w4, Throw e) ->
     snd result = Throw e /\ world (fst result) = w4 /\
     isDisposed (this (fst result)) = false).
Proof.
  intros Hnd Hev live w2 actions result.
  pose proof (dispose_runs_teardown ps entries idle ds omit w w1 Hnd Hev) as H.
  fold w2 actions live result in H.
  split.
  - intros w3 Hall. rewrite Hall in H. exact H.
  - intros before d after w3 w4 e Hsplit Hbefore Hd.
    assert (Hrun : runAll actions w2 = (w4, Throw e)).
    { rewrite Hsplit, runAll_app, Hbefore. unfold runAll. cbn [forEach]. unfold bind.
      rewrite Hd. reflexivity. }
    rewrite Hrun in H. destruct H as (ed & Hres & Hlive). rewrite Hres.
    repeat split. exact Hlive.
Qed.

(** C5. The closure [runAsync] registered, firing once the editor is
    disposed, does not run the callback and raises nothing: the page is
    as it was. *)
Theorem runAsync_frame_after_dispose (callback : option (@Task W V)) (h : Host)
    (pending : list (@Task W V)) :
  isDisposed (this h) = true ->
  runAsync_frame callback h = (h, Ok tt) /\
  fireAnimationFrame (mkWindow h (runAsync_frame callback :: pending))
    = (mkWindow h pending, Ok tt).
Proof.
  intro Hd.
  assert (Hframe : runAsync_frame callback h = (h, Ok tt)).
  { unfold runAsync_frame, bind, gets. rewrite Hd. destruct callback; reflexivity. }
  split; [exact Hframe|].
  unfold fireAnimationFrame. cbn [animationFrames host]. rewrite Hframe. reflexivity.
Qed.

End LifecycleFacts.

(** *** Disposal on the example editors *)

Section LifecycleExamples.
Import Lifecycle DisposalScenario.

Lemma pickerData_keys : NoDup (map fst pickerData).
Proof. repeat constructor. intros []. Qed.

(** The healthy editor releases everything, in order, and is disposed; the
    faulty one stops at its first plugin. *)
Lemma dispose_stops_at_first_throw_witness :
  dispose deliver clearInterval resetContentDiv (mkHost healthy [])
    = (mkHost disposed
         ["idle loop"; "paste"; "link"; "keydown"; "blur"; "picker"; "contenteditable"],
       Ok tt) /\
  (snd (dispose deliver clearInterval resetContentDiv (mkHost faulty []))
     = Throw (Error "paste") /\
   world (fst (dispose deliver clearInterval resetContentDiv (mkHost faulty [])))
     = ["idle loop"] /\
   isDisposed (this (fst (dispose deliver clearInterval resetContentDiv (mkHost faulty []))))
     = false).
Proof.
  split.
  - exact (proj1 (dispose_stops_at_first_throw deliver clearInterval resetContentDiv
                    [mkPlugin "paste" (release "paste"); mkPlugin "link" (release "link")]
                    pickerData 7 [release "keydown"; release "blur"] false [] []
                    pickerData_keys eq_refl)
             ["idle loop"; "paste"; "link"; "keydown"; "blur"; "picker"] eq_refl).
  - exact (proj2 (dispose_stops_at_first_throw deliver clearInterval resetContentDiv
                    [mkPlugin "paste" (broken "paste"); mkPlugin "link" (release "link")]
                    pickerData 7 [release "keydown"; release "blur"] false [] []
                    pickerData_keys eq_refl)
             [] (broken "paste")
             [release "link"; release "keydown"; release "blur"; release "picker"]
             ["idle loop"] ["idle loop"] (Error "paste") eq_refl eq_refl eq_refl).
Defined.

(** C3 as stated fails: when the first plugin's [dispose] throws, the
    second plugin, both event disposers and the custom data disposer are
    never invoked, and the editor is left undisposed. *)
Lemma dispose_throwing_plugin_skips_the_rest :
  dispose deliver clearInterval resetContentDiv (mkHost faulty [])
    = (mkHost
         (mkEditor
            (Some (mkCore [mkPlugin "paste" (broken "paste"); mkPlugin "link" (release "link")]
                     pickerData 0))
            (Some [release "keydown"; release "blur"])
            false)
         ["idle loop"],
       Throw (Error "paste")) /\
  List.length (teardown
                 (mkCore [mkPlugin "paste" (broken "paste"); mkPlugin "link" (release "link")]
                    pickerData 7)
                 [release "keydown"; release "blur"]) = 5%nat /\
  ~ In "link" (world (fst (dispose deliver clearInterval resetContentDiv (mkHost faulty [])))) /\
  ~ In "keydown"
      (world (fst (dispose deliver clearInterval resetContentDiv (mkHost faulty [])))) /\
  ~ In "picker"
      (world (fst (dispose deliver clearInterval resetContentDiv (mkHost faulty [])))).
Proof.
  split; [reflexivity|]. split; [reflexivity|].
  repeat split; simpl; intros [H|[]]; discriminate H.
Qed.

(** A callback is scheduled on the live editor, the editor is disposed,
    and then the frame fires: the callback has not run and nothing is
    raised. *)
Lemma runAsync_frame_after_dispose_witness :
  runAsync_frame (Some mark)
    (fst (dispose deliver clearInterval resetContentDiv (mkHost healthy [])))
    = (fst (dispose deliver clearInterval resetContentDiv (mkHost healthy [])), Ok tt) /\
  fireAnimationFrame
    (mkWindow (fst (dispose deliver clearInterval resetContentDiv (mkHost healthy [])))
       [runAsync_frame (Some mark)])
    = (mkWindow (fst (dispose deliver clearInterval resetContentDiv (mkHost healthy []))) [],
       Ok tt).
Proof.
  exact (runAsync_frame_after_dispose (Some mark)
           (fst (dispose deliver clearInterval resetContentDiv (mkHost healthy []))) []
           eq_refl).
Defined.

(** The same run, step by step; fired before [dispose], the frame would
    have run the callback. *)
Lemma runAsync_dispose_fire :
  fst (runAsync (Some mark) (mkWindow (mkHost healthy []) []))
    = mkWindow (mkHost healthy []) [runAsync_frame (Some mark)] /\
  fireAnimationFrame
    (fst (inHost (dispose deliver clearInterval resetContentDiv)
            (fst (runAsync (Some mark) (mkWindow (mkHost healthy []) [])))))
    = (mkWindow
         (mkHost disposed
            ["idle loop"; "paste"; "link"; "keydown"; "blur"; "picker"; "contenteditable"])
         [],
       Ok tt) /\
  fireAnimationFrame (fst (runAsync (Some mark) (mkWindow (mkHost healthy []) [])))
    = (mkWindow (mkHost healthy ["callback ran"]) [], Ok tt).
Proof. repeat split. Qed.

End LifecycleExamples.

(** ** Scopers *)

Section ScoperFacts.
Import Dom Selection Scopers.

Lemma sameNode_refl (n : Node) : sameNode n n = true.
Proof. apply Nat.eqb_refl. Qed.

Lemma sameNode_eq (a b : Node) : sameNode a b = true <-> nodeId a = nodeId b.
Proof. apply Nat.eqb_eq. Qed.

(** [Node.contains] finds every node under the root. *)
Lemma Node_contains_Under (r n : Node) : Under r n -> Node_contains r n = true.
Proof.
  induction 1 as [r|r id tag cs c n Hr Hin _ IH].
  - destruct r; simpl; rewrite sameNode_refl; reflexivity.
  - subst r. simpl. apply orb_true_iff. right.
    apply existsb_exists. exists c. split; assumption.
Qed.

(** C6. For a [BodyScoper] over a root, every block whose start node lies
    under the root is in scope, and trimming an inline element returns
    that element. *)
Theorem BodyScoper_whole_root (getFirstBlockElement : Node -> option BlockElement)
    (getFirstInlineElement : Node -> option InlineElement)
    (rootNode : Node) (blockElement : BlockElement) (inlineElement : InlineElement) :
  Under rootNode (getStartNode blockElement) ->
  isBlockInScope (BodyScoper getFirstBlockElement getFirstInlineElement rootNode) blockElement
    = true /\
  trimInlineElement (BodyScoper getFirstBlockElement getFirstInlineElement rootNode)
    inlineElement = Some inlineElement.
Proof.
  intro Hunder. split; [|reflexivity].
  simpl. apply Node_contains_Under. exact Hunder.
Qed.

(** C7. A [BlockScoper] holds a block in scope exactly when the block
    equals its start block. Over [<p>part1</p><p>part2</p>], anchored at
    "part1" (inside its text, or at the paragraph), the start block is the
    first paragraph: that block is in scope and the block of "part2" is
    not. *)
Theorem BlockScoper_scope_is_start_block :
  (forall isBlockLevel inlineAt rootNode position startPosition blockElement,
     isBlockInScope (BlockScoper isBlockLevel inlineAt rootNode position startPosition)
       blockElement = true <->
     exists startBlock,
       getStartBlockElement (BlockScoper isBlockLevel inlineAt rootNode position startPosition)
         = Some startBlock /\
       equals startBlock blockElement = true) /\
  (forall inlineAt,
     let inText := TraversalScenario.anchoredAt inlineAt Scenario.part1Text in
     let atParagraph := TraversalScenario.anchoredAt inlineAt Scenario.part1 in
     (getStartBlockElement inText = Some (NodeBlockElement Scenario.part1) /\
      isBlockInScope inText (NodeBlockElement Scenario.part1) = true /\
      isBlockInScope inText (NodeBlockElement Scenario.part2) = false) /\
     (getStartBlockElement atParagraph = Some (NodeBlockElement Scenario.part1) /\
      isBlockInScope atParagraph (NodeBlockElement Scenario.part1) = true /\
      isBlockInScope atParagraph (NodeBlockElement Scenario.part2) = false)).
Proof.
  split.
  - intros isBlockLevel inlineAt rootNode position startPosition blockElement.
    unfold BlockScoper. cbn [isBlockInScope getStartBlockElement].
    destruct (getBlockElementAtNode isBlockLevel rootNode (node position)) as [b|]; split.
    + intro H. exists b. split; [reflexivity | exact H].
    + intros (s & Hs & He). inversion Hs. subst. exact He.
    + discriminate.
    + intros (s & Hs & _). discriminate.
  - intro inlineAt. repeat split.
Qed.

(** The other shape of block: inline content directly under the root,
    [www.example.com<br>], is one start-end block from the text to the
    break. *)
Lemma getBlockElementAtNode_inline_run :
  getBlockElementAtNode isBlockTag
    (ElementNode 0 "DIV" [TextNode 1 "www.example.com"; ElementNode 2 "BR" []])
    (TextNode 1 "www.example.com")
  = Some (StartEndBlockElement
            (ElementNode 0 "DIV" [TextNode 1 "www.example.com"; ElementNode 2 "BR" []])
            (TextNode 1 "www.example.com") (ElementNode 2 "BR" [])).
Proof. reflexivity. Qed.

End ScoperFacts.

(** ** Selection ranges *)

Section SelectionFacts.
Import Dom Selection.

(** C9. A [SelectionRange] built from two positions is collapsed exactly
    when they have the same container node and the same offset, that is,
    when they are equal; built from one position, it ends where it starts
    and is collapsed. *)
Theorem SelectionRange_collapsed_iff_equal (Position_new : Node -> Z -> Position)
    (s e : Position) :
  let both := SelectionRange_new Position_new (inl s) (Some e) in
  let single := SelectionRange_new Position_new (inl s) None in
  (start both = s /\ end_ both = e) /\
  (collapsed both = true <-> nodeId (node s) = nodeId (node e) /\ offset s = offset e) /\
  (collapsed both = Position_equalTo s e) /\
  (start single = s /\ end_ single = s /\ collapsed single = true).
Proof.
  cbn. unfold Position_equalTo.
  split; [split; reflexivity|]. split; [|split].
  - rewrite andb_true_iff, sameNode_eq, Z.eqb_eq. reflexivity.
  - reflexivity.
  - split; [reflexivity|]. split; [reflexivity|].
    rewrite sameNode_refl, Z.eqb_refl. reflexivity.
Qed.

End SelectionFacts.

(** ** Restoring the selection *)

Section KeepSelectionFacts.
Import Dom Selection KeepSelection.

Variable contains : ContainsFn.
Variable normalizeEditorPoint : Node -> Z -> EditorPoint.

(** A point whose container is outside the editor is refused and left as
    it was. *)
Lemma validateEditorPoint_outside (content : Node) (point : EditorPoint) (n : Node) :
  containerNode point = Some n ->
  Editor_contains contains content n = false ->
  validateEditorPoint contains content point = (false, point).
Proof.
  intros Hn Hout. unfold validateEditorPoint. rewrite Hn, Hout. reflexivity.
Qed.

(** The fallback branches never position the range from a point. *)
Lemma useFallback_not_fromPoint (range : option Range) (fallback : Fallback)
    (update : Update) :
  useFallback range fallback = Ok update -> existsb fromPoint (calls update) = false.
Proof.
  intro H. destruct fallback, range; inversion H; reflexivity.
Qed.

(** [keepSelection] on an editor with a selection, once the callback has
    returned: lines 19-30, on the points as the callback left them. *)
Lemma keepSelection_after_callback (editor : Editor) (callback : Callback) (r : Range)
    (content : Node) (writes : list PointWrite) (fallback : Fallback) :
  selectionRange editor = Some r ->
  callback (Some (normalizeEditorPoint (startContainer r) (startOffset r)))
    (Some (normalizeEditorPoint (endContainer r) (endOffset r))) (contentDiv editor)
    = (content, writes, Ok fallback) ->
  keepSelection contains normalizeEditorPoint editor callback
    = (content,
       let (validStart, sp') :=
         validateEditorPoint contains content
           (afterCallback StartPoint writes content
              (normalizeEditorPoint (startContainer r) (startOffset r))) in
       if validStart then
         let (validEnd, ep') :=
           validateEditorPoint contains content
             (afterCallback EndPoint writes content
                (normalizeEditorPoint (endContainer r) (endOffset r))) in
         if validEnd then
           Ok (mkUpdate (Some r)
                 [SetStart (containerNode sp') (offset sp');
                  SetEnd (containerNode ep') (offset ep')])
         else useFallback (Some r) fallback
       else useFallback (Some r) fallback).
Proof.
  intros Hr Hcb. unfold keepSelection. rewrite Hr. cbn [option_map]. rewrite Hcb.
  reflexivity.
Qed.

(** C8. A point that [validateEditorPoint] accepts has a container inside
    the editor and, afterwards, an offset that is not negative and is
    clamped to the text length for a text node and to the number of
    children for an element. A point whose container is outside the
    editor is refused. And when, after the callback, the container of
    either point of [keepSelection] is outside the editor, [keepSelection]
    takes the fallback branches, which do not position the range from the
    points; the points are the objects the callback was given, with what
    it assigned to them, and their containers are read as they are after
    the callback. *)
Theorem validateEditorPoint_clamps (content : Node) :
  (forall point point',
     validateEditorPoint contains content point = (true, point') ->
     exists n,
       containerNode point = Some n /\ containerNode point' = Some n /\
       Editor_contains contains content n = true /\
       0 <= offset point' /\
       (nodeType n = Text ->
        offset point' = Z.min (offset point) (dataLength n) /\
        offset point' <= dataLength n) /\
       (nodeType n = Element ->
        offset point' = Z.min (offset point) (Z.of_nat (List.length (childNodes n))) /\
        offset point' <= Z.of_nat (List.length (childNodes n)))) /\
  (forall other n,
     containerNode other = Some n ->
     Editor_contains contains content n = false ->
     validateEditorPoint contains content other = (false, other)) /\
  (forall editor callback r writes fallback n,
     selectionRange editor = Some r ->
     callback (Some (normalizeEditorPoint (startContainer r) (startOffset r)))
       (Some (normalizeEditorPoint (endContainer r) (endOffset r))) (contentDiv editor)
       = (content, writes, Ok fallback) ->
     (containerNode (afterCallback StartPoint writes content
                       (normalizeEditorPoint (startContainer r) (startOffset r))) = Some n \/
      containerNode (afterCallback EndPoint writes content
                       (normalizeEditorPoint (endContainer r) (endOffset r))) = Some n) ->
     Editor_contains contains content n = false ->
     keepSelection contains normalizeEditorPoint editor callback
       = (content, useFallback (Some r) fallback) /\
     forall update,
       useFallback (Some r) fallback = Ok update ->
       existsb fromPoint (calls update) = false).
Proof.
  split; [|split].
  - intros point point' Hvalid. unfold validateEditorPoint in Hvalid.
    destruct (containerNode point) as [n|] eqn:Hn; [|discriminate].
    destruct (Editor_contains contains content n) eqn:Hin; [|discriminate].
    exists n. split; [reflexivity|].
    destruct n as [id tag cs|id d|id d]; cbn [nodeType] in Hvalid;
      injection Hvalid as Hpos Hpoint; subst point'; cbn [containerNode offset];
      apply Z.leb_le in Hpos.
    + split; [first [reflexivity | exact Hn]|]. split; [exact Hin|]. split; [exact Hpos|].
      split; [discriminate|]. intros _. split; [reflexivity | apply Z.le_min_r].
    + split; [first [reflexivity | exact Hn]|]. split; [exact Hin|]. split; [exact Hpos|].
      split; [|discriminate]. intros _. split; [reflexivity | apply Z.le_min_r].
    + split; [first [reflexivity | exact Hn]|]. split; [exact Hin|]. split; [exact Hpos|].
      split; discriminate.
  - intros other n. apply validateEditorPoint_outside.
  - intros editor callback r writes fallback n Hr Hcb Hwhich Hout.
    split; [|intro update; apply useFallback_not_fromPoint].
    rewrite (keepSelection_after_callback editor callback r content writes fallback Hr Hcb).
    f_equal.
    destruct Hwhich as [Hn|Hn].
    + rewrite (validateEditorPoint_outside content _ n Hn Hout). reflexivity.
    + rewrite (validateEditorPoint_outside content
                 (afterCallback EndPoint writes content
                    (normalizeEditorPoint (endContainer r) (endOffset r))) n Hn Hout).
      destruct (validateEditorPoint contains content
                  (afterCallback StartPoint writes content
                     (normalizeEditorPoint (startContainer r) (startOffset r))))
        as [[] sp']; reflexivity.
Qed.

End KeepSelectionFacts.

(** ** Traversal and selection on the example document *)

Section TraversalExamples.
Import Dom Scenario TraversalScenario.

(** The second paragraph lies under the root: its block is in scope. *)
Lemma BodyScoper_whole_root_witness :
  Scopers.isBlockInScope (Scopers.BodyScoper noBlock noInline twoParagraphs)
    (Scopers.NodeBlockElement part2) = true /\
  Scopers.trimInlineElement (Scopers.BodyScoper noBlock noInline twoParagraphs) part1Run
    = Some part1Run.
Proof.
  apply BodyScoper_whole_root.
  eapply Scopers.Under_child; [reflexivity | right; left; reflexivity | apply Scopers.Under_self].
Defined.

(** A block that is not in the document is out of scope. *)
Lemma BodyScoper_detached_block :
  Scopers.isBlockInScope (Scopers.BodyScoper noBlock noInline twoParagraphs)
    (Scopers.NodeBlockElement (TextNode 9 "gone")) = false.
Proof. reflexivity. Qed.

(** Offset 9 in "part1" is clamped to 5. *)
Lemma validateEditorPoint_clamps_witness :
  exists n,
    KeepSelection.containerNode pastText = Some n /\
    KeepSelection.containerNode (pointAt part1Text 5) = Some n /\
    KeepSelection.Editor_contains KeepSelection.strictlyContains twoParagraphs n = true /\
    0 <= KeepSelection.offset (pointAt part1Text 5) /\
    (nodeType n = Text ->
     KeepSelection.offset (pointAt part1Text 5)
       = Z.min (KeepSelection.offset pastText) (KeepSelection.dataLength n) /\
     KeepSelection.offset (pointAt part1Text 5) <= KeepSelection.dataLength n) /\
    (nodeType n = Element ->
     KeepSelection.offset (pointAt part1Text 5)
       = Z.min (KeepSelection.offset pastText) (Z.of_nat (List.length (childNodes n))) /\
     KeepSelection.offset (pointAt part1Text 5) <= Z.of_nat (List.length (childNodes n))).
Proof.
  exact (proj1 (validateEditorPoint_clamps KeepSelection.strictlyContains pointAt
                  twoParagraphs) pastText (pointAt part1Text 5) eq_refl).
Defined.

Lemma validateEditorPoint_examples :
  KeepSelection.validateEditorPoint KeepSelection.strictlyContains twoParagraphs pastText
    = (true, pointAt part1Text 5) /\
  KeepSelection.validateEditorPoint KeepSelection.strictlyContains twoParagraphs onContentDiv
    = (false, onContentDiv) /\
  KeepSelection.validateEditorPoint KeepSelection.strictlyContains twoParagraphs
    (pointAt part1 3) = (true, pointAt part1 1) /\
  KeepSelection.validateEditorPoint KeepSelection.strictlyContains twoParagraphs
    (pointAt part1Text (-1)) = (false, pointAt part1Text (-1)) /\
  KeepSelection.validateEditorPoint KeepSelection.strictlyContains twoParagraphs detached
    = (false, detached).
Proof. repeat split. Qed.

(** The end of the selection was removed by the callback: the range is
    taken from the fallback node, not from the points. *)
Lemma keepSelection_removed_end :
  KeepSelection.keepSelection KeepSelection.strictlyContains pointAt selecting removeThird
    = (twoParagraphs,
       Ok (KeepSelection.mkUpdate
             (Some (Selection.mkRange part1Text 2 (TextNode 9 "gone") 1))
             [KeepSelection.SelectNode part1])).
Proof. reflexivity. Qed.

(** The callback cuts "part1" down to "pa" while the caret is at offset 5:
    the points hold the text node, not a copy of it, so the offset is
    clamped to the two characters that are left. *)
Lemma keepSelection_shortened_text :
  KeepSelection.keepSelection KeepSelection.strictlyContains pointAt
    SelectionEdgeCases.caretAfterPart1 SelectionEdgeCases.shorten
    = (SelectionEdgeCases.shortened,
       Ok (KeepSelection.mkUpdate (Some (Selection.mkRange part1Text 5 part1Text 5))
             [KeepSelection.SetStart (Some SelectionEdgeCases.shortText) 2;
              KeepSelection.SetEnd (Some SelectionEdgeCases.shortText) 2])).
Proof. reflexivity. Qed.

(** The callback moves the start point into "part2": the range is
    positioned where the callback put the point. *)
Lemma keepSelection_moved_start :
  KeepSelection.keepSelection KeepSelection.strictlyContains pointAt
    SelectionEdgeCases.caretAfterPart1 SelectionEdgeCases.moveStart
    = (twoParagraphs,
       Ok (KeepSelection.mkUpdate (Some (Selection.mkRange part1Text 5 part1Text 5))
             [KeepSelection.SetStart (Some part2Text) 1;
              KeepSelection.SetEnd (Some part1Text) 5])).
Proof. reflexivity. Qed.

(** The callback points the end at a node outside the document: the
    fallback node is selected. *)
Lemma keepSelection_moved_end_outside :
  KeepSelection.keepSelection KeepSelection.strictlyContains pointAt
    SelectionEdgeCases.caretAfterPart1 SelectionEdgeCases.moveEndOutside
    = (twoParagraphs,
       Ok (KeepSelection.mkUpdate (Some (Selection.mkRange part1Text 5 part1Text 5))
             [KeepSelection.SelectNode part1])).
Proof. reflexivity. Qed.

End TraversalExamples.

(** * Further properties of the code *)

(** ** The undo engine *)

Section UndoMore.
Import Dom UndoEngine EditorUndo.

Variable h : PluginEvent -> bool -> Call unit.

(** X1. The suppression flag is a scoped guard. An outermost [runWithUndo]
    returns with the flag cleared whatever its callback, its data callback
    and the plugins did to it, on a normal and on an exceptional exit; a
    nested one leaves the flag as its callback left it. *)
Theorem runWithUndo_releases_flag (cb : option (Call unit)) (cs : option string)
    (gd : option (Call Any)) (c : EditorCore) :
  suspendUndo (fst (runWithUndo h cb cs gd c)) =
    if suspendUndo c then suspendUndo (fst (callOpt cb c)) else false.
Proof.
  destruct (suspendUndo c) eqn:Hs.
  - rewrite (runWithUndo_nested h cb cs gd c Hs). reflexivity.
  - destruct cb as [f|].
    + rewrite (runWithUndo_outermost h f cs gd c Hs).
      destruct (f (entered c)) as [c1 [[]|e]]; [|reflexivity].
      destruct (truthy cs); [|reflexivity].
      destruct (getData gd (snapshot c1)) as [c3 [d|e]]; [|reflexivity].
      destruct (h (contentChanged cs d) true (logged (contentChanged cs d) true c3));
        reflexivity.
    + unfold runWithUndo, bind, gets, when, try_finally, ret, modify, undo_addUndoSnapshot.
      rewrite Hs. reflexivity.
Qed.

(** X2. [getDataCallback] and the plugins are reached only on the way to the
    event. When the invocation is nested, or [changeSource] is empty or
    null, or no callback was given, or the callback threw, the result is
    the same whatever data callback and plugins are supplied; and with no
    callback at all an outermost invocation takes its before-snapshot and
    nothing else. *)
Theorem runWithUndo_data_callback_unused (cb : option (Call unit)) (cs : option string)
    (gd : option (Call Any)) (c : EditorCore) :
  reachesEvent cb cs c = false ->
  (forall h' gd', runWithUndo h' cb cs gd' c = runWithUndo h cb cs gd c) /\
  (cb = None -> suspendUndo c = false ->
   runWithUndo h cb cs gd c = (set_suspendUndo false (snapshot c), Ok tt)).
Proof.
  intro Hr. split.
  - intros h' gd'. unfold reachesEvent in Hr.
    destruct (suspendUndo c) eqn:Hs.
    + rewrite !runWithUndo_nested by exact Hs. reflexivity.
    + destruct cb as [f|].
      * rewrite !runWithUndo_outermost by exact Hs.
        destruct (f (entered c)) as [c1 [[]|e]]; [|reflexivity].
        simpl in Hr. rewrite andb_true_r in Hr. rewrite Hr. reflexivity.
      * unfold runWithUndo, bind, gets, when, try_finally, ret, modify, undo_addUndoSnapshot.
        rewrite Hs. reflexivity.
  - intros -> Hs.
    unfold runWithUndo, bind, gets, when, try_finally, ret, modify, undo_addUndoSnapshot.
    rewrite Hs. reflexivity.
Qed.

(** X3. The deprecated [Editor.runWithoutAddingUndoSnapshot]: the callback
    starts with the flag set and its outcome is passed on; a callback that
    respects suppression (one that asks for snapshots through
    [Editor.addUndoSnapshot], say) leaves the undo service untouched; and
    the flag is cleared afterwards on both exits, whatever it was before
    the call. *)
Theorem runWithoutAddingUndoSnapshot_scope (cb : Call unit) (c : EditorCore) :
  Suppressed cb ->
  Editor_runWithoutAddingUndoSnapshot cb c
    = (set_suspendUndo false (fst (cb (set_suspendUndo true c))),
       snd (cb (set_suspendUndo true c))) /\
  undo (fst (Editor_runWithoutAddingUndoSnapshot cb c)) = undo c /\
  suspendUndo (fst (Editor_runWithoutAddingUndoSnapshot cb c)) = false /\
  undo (fst ((Editor_runWithoutAddingUndoSnapshot cb ;; Editor_addUndoSnapshot) c))
    = match snd (cb (set_suspendUndo true c)) with
      | Ok _ => undo c ++ [contentDiv (fst (cb (set_suspendUndo true c)))]
      | Throw _ => undo c
      end.
Proof.
  intro Hcb.
  assert (E : Editor_runWithoutAddingUndoSnapshot cb c
              = (set_suspendUndo false (fst (cb (set_suspendUndo true c))),
                 snd (cb (set_suspendUndo true c)))).
  { unfold Editor_runWithoutAddingUndoSnapshot, try_finally, bind, modify.
    destruct (cb (set_suspendUndo true c)) as [c1 [[]|e]]; reflexivity. }
  destruct (Hcb (set_suspendUndo true c) eq_refl) as [_ Hu].
  split; [exact E|]. split; [rewrite E; exact Hu|]. split; [rewrite E; reflexivity|].
  unfold bind at 1. rewrite E.
  destruct (cb (set_suspendUndo true c)) as [c1 [[]|e]]; simpl in *.
  - rewrite Hu. reflexivity.
  - exact Hu.
Qed.

Variable ChangeSource_Format : string.

(** X4. [Editor.runWithUndo] with [changeSource] left out reports the change
    as [ChangeSource.Format]; with an explicit null it reports nothing,
    and takes the same two snapshots. *)
Theorem Editor_runWithUndo_default_source (cb : Call unit) (gd : option (Call Any))
    (c c1 c3 : EditorCore) (d : option Any) :
  ChangeSource_Format <> "" ->
  suspendUndo c = false ->
  cb (entered c) = (c1, Ok tt) ->
  getData gd (snapshot c1) = (c3, Ok d) ->
  Editor_runWithUndo ChangeSource_Format h (Some cb) Omitted gd c
    = (set_suspendUndo false
         (fst (h (contentChanged (Some ChangeSource_Format) d) true
                 (logged (contentChanged (Some ChangeSource_Format) d) true c3))),
       snd (h (contentChanged (Some ChangeSource_Format) d) true
              (logged (contentChanged (Some ChangeSource_Format) d) true c3))) /\
  Editor_runWithUndo ChangeSource_Format h (Some cb) (Passed None) gd c
    = (set_suspendUndo false (snapshot c1), Ok tt).
Proof.
  intros Hne Hs Hcb Hd. unfold Editor_runWithUndo.
  rewrite !runWithUndo_outermost by exact Hs. rewrite Hcb.
  assert (Ht : truthy (Some ChangeSource_Format) = true).
  { simpl. destruct (String.eqb_spec ChangeSource_Format ""); [contradiction|reflexivity]. }
  rewrite Ht, Hd. cbn [truthy].
  destruct (h (contentChanged (Some ChangeSource_Format) d) true
              (logged (contentChanged (Some ChangeSource_Format) d) true c3)).
  split; reflexivity.
Qed.

End UndoMore.

Section UndoMoreExamples.
Import Dom UndoEngine EditorUndo Scenario.

(** A format command with an empty change source: the failing data
    callback and the plugin are never reached. *)
Lemma runWithUndo_data_callback_unused_witness :
  runWithUndo noPlugins (Some dropSecond) (Some "") None idleCore
    = runWithUndo clearOnEvent (Some dropSecond) (Some "") (Some failing) idleCore.
Proof.
  exact (proj1 (runWithUndo_data_callback_unused clearOnEvent (Some dropSecond) (Some "")
                  (Some failing) idleCore eq_refl) noPlugins None).
Defined.

(** A callback that edits and asks for a snapshot, run through
    [runWithoutAddingUndoSnapshot] inside a [runWithUndo] callback: no
    snapshot is taken, and the flag the outer call had set is gone. *)
Lemma runWithoutAddingUndoSnapshot_scope_witness :
  undo (fst (Editor_runWithoutAddingUndoSnapshot (dropSecond ;; Editor_addUndoSnapshot)
               (entered idleCore)))
    = [twoParagraphs] /\
  suspendUndo (fst (Editor_runWithoutAddingUndoSnapshot (dropSecond ;; Editor_addUndoSnapshot)
                      (entered idleCore)))
    = false.
Proof.
  pose proof (runWithoutAddingUndoSnapshot_scope (dropSecond ;; Editor_addUndoSnapshot)
                (entered idleCore)
                (Suppressed_bind _ _ (Suppressed_edit _)
                   (fun _ => Suppressed_addUndoSnapshot))) as H.
  exact (conj (proj1 (proj2 H)) (proj1 (proj2 (proj2 H)))).
Defined.

(** [editor.runWithUndo(edit)] reports [Format]; [editor.runWithUndo(edit,
    null)] reports nothing. *)
Lemma Editor_runWithUndo_default_source_witness :
  dispatched (fst (Editor_runWithUndo "Format" noPlugins (Some dropSecond) Omitted None
                     idleCore))
    = [(mkEvent ContentChanged (Some "Format") None, true)] /\
  dispatched (fst (Editor_runWithUndo "Format" noPlugins (Some dropSecond) (Passed None) None
                     idleCore))
    = [].
Proof.
  pose proof (Editor_runWithUndo_default_source noPlugins "Format" dropSecond None idleCore
                (set_contentDiv oneParagraph (entered idleCore))
                (snapshot (set_contentDiv oneParagraph (entered idleCore))) None
                ltac:(discriminate) eq_refl eq_refl eq_refl) as [H1 H2].
  split; [rewrite H1 | rewrite H2]; reflexivity.
Defined.

End UndoMoreExamples.

(** ** The editor's life cycle *)

Section LifecycleMore.
Import Lifecycle.

Context {W V : Type}.
Variable api_triggerEvent : PluginEvent -> bool -> M W unit.
Variable win_clearInterval : Z -> W -> W.
Variable resetContentEditable : W -> W.

Local Abbreviation Disposer := (@Disposer W).
Local Abbreviation EditorPlugin := (@EditorPlugin W).
Local Abbreviation CustomData := (@CustomData W V).
Local Abbreviation Host := (@Host W V).
Local Abbreviation Editor := (@Editor W V).
Local Abbreviation EditorCore := (@EditorCore W V).
Local Abbreviation Task := (@Task W V).
Local Abbreviation dispose :=
  (@Lifecycle.dispose W V api_triggerEvent win_clearInterval resetContentEditable).

(** X7. Use after [dispose]. On a disposed editor [dispose], [triggerEvent] and
    [runAsync] each throw a TypeError (they read a field of the null core)
    and change nothing: no event is dispatched, no disposer runs, no frame
    is registered. *)
Theorem disposed_editor_throws (h : Host) (ev : PluginEvent) (broadcast : bool)
    (callback : option Task) (pending : list Task) :
  isDisposed (this h) = true ->
  dispose h = (h, Throw TypeError) /\
  Editor_triggerEvent api_triggerEvent ev broadcast h = (h, Throw TypeError) /\
  runAsync callback (mkWindow h pending) = (mkWindow h pending, Throw TypeError).
Proof.
  intro Hd. unfold isDisposed in Hd.
  destruct (core (this h)) eqn:Hc; [discriminate|].
  assert (Ht : forall e b, Editor_triggerEvent api_triggerEvent e b h = (h, Throw TypeError)).
  { intros e b. unfold Editor_triggerEvent, bind, this_core. rewrite Hc. reflexivity. }
  split; [|split].
  - unfold Lifecycle.dispose. erewrite bind_throw; [reflexivity | apply Ht].
  - apply Ht.
  - unfold runAsync. cbn [host]. rewrite Hc. reflexivity.
Qed.

(** X8. A plugin that throws while handling [BeforeDispose] aborts [dispose]
    before anything is torn down: the idle loop keeps running, no disposer
    is invoked and the editor stays as it was. *)
Theorem dispose_aborted_by_BeforeDispose (c : EditorCore) (eds : option (list Disposer))
    (omit : bool) (w w1 : W) (e : Exn) :
  api_triggerEvent (mkEvent BeforeDispose None None) true w = (w1, Throw e) ->
  dispose (mkHost (mkEditor (Some c) eds omit) w)
    = (mkHost (mkEditor (Some c) eds omit) w1, Throw e).
Proof.
  intro Hev. unfold Lifecycle.dispose.
  erewrite bind_throw; [reflexivity|].
  rewrite Editor_triggerEvent_live, Hev. reflexivity.
Qed.

(** X9. [runAsync] on a live editor only registers its closure, after the
    frames already pending: the callback is not run and the editor and
    the page are untouched. Fired while the editor is still live, the
    closure is the callback. *)
Theorem runAsync_defers (callback : Task) (win : @Window W V) (h : Host) :
  isDisposed (this (host win)) = false ->
  isDisposed (this h) = false ->
  runAsync (Some callback) win
    = (mkWindow (host win) (animationFrames win ++ [runAsync_frame (Some callback)]), Ok tt) /\
  runAsync_frame (Some callback) h = callback h.
Proof.
  intros Hw Hh. split.
  - unfold runAsync. unfold isDisposed in Hw.
    destruct (core (this (host win))); [reflexivity | discriminate].
  - unfold runAsync_frame, bind, gets, when. rewrite Hh. reflexivity.
Qed.

(** [dispose] cannot get past [this.eventDisposers.forEach] once that
    field is null: it never returns normally. *)
Lemma dispose_needs_eventDisposers (ed : Editor) (w : W) :
  eventDisposers ed = None ->
  exists e, snd (dispose (mkHost ed w)) = Throw e.
Proof.
  intro He. destruct ed as [[c|] eds omit]; cbn [eventDisposers] in He; subst eds.
  2: { exists TypeError. unfold Lifecycle.dispose.
       erewrite bind_throw; [reflexivity|]. reflexivity. }
  unfold Lifecycle.dispose.
  destruct (api_triggerEvent (mkEvent BeforeDispose None None) true w) as [w1 [[]|e]] eqn:Hev.
  2: { exists e. erewrite bind_throw; [reflexivity|].
       rewrite Editor_triggerEvent_live, Hev. reflexivity. }
  erewrite bind_ok; [|rewrite Editor_triggerEvent_live, Hev; reflexivity].
  erewrite bind_ok; [|reflexivity].
  destruct c as [ps entries idle].
  erewrite (bind_ok _ _ _
              (mkHost (mkEditor (Some (mkCore ps entries (if 0 <? idle then 0 else idle)))
                         None omit)
                 (if 0 <? idle then win_clearInterval idle w1 else w1)));
    [|cbn [idleLoopHandle]; destruct (0 <? idle); reflexivity].
  erewrite bind_ok; [|reflexivity].
  cbn [plugins]. rewrite bind_forEach_inWorld.
  destruct (runAll (map plugin_dispose ps) _) as [wa [[]|e]].
  - exists TypeError. erewrite bind_throw; reflexivity.
  - exists e. reflexivity.
Qed.

(** The custom data loop when a disposer throws: the entries before the
    one whose disposer throws have had their disposers run and are
    deleted; that entry and the entries after it are still there. *)
Lemma customData_loop_throw (entries : list (string * option CustomData)) :
  NoDup (map fst entries) ->
  forall (ps : list EditorPlugin) (idle : Z) (eds : option (list Disposer)) (omit : bool)
         (w wc : W) (e : Exn),
    runAll (customDisposers entries) w = (wc, Throw e) ->
    exists done key d f rest wm,
      entries = done ++ (key, Some d) :: rest /\
      disposer d = Some f /\
      runAll (customDisposers done) w = (wm, Ok tt) /\
      f (value d) wm = (wc, Throw e) /\
      forEach (map fst entries) disposeCustomData
        (mkHost (mkEditor (Some (mkCore ps entries idle)) eds omit) w)
      = (mkHost (mkEditor (Some (mkCore ps ((key, Some d) :: rest) idle)) eds omit) wc,
         Throw e).
Proof.
  induction entries as [|[k d] rest IH]; intros Hnd ps idle eds omit w wc e Hrun.
  - discriminate.
  - inversion Hnd as [|? ? Hk Hrest]. subst.
    assert (Hcons : forall more,
               customDisposers ((k, d) :: more)
               = customDisposers [(k, d)] ++ customDisposers more)
      by (intro more; unfold customDisposers; simpl; rewrite app_nil_r; reflexivity).
    rewrite Hcons, runAll_app in Hrun.
    cbn [map fst forEach]. unfold bind at 1.
    rewrite (disposeCustomData_head k d rest ps idle eds omit w Hk).
    destruct (runAll (customDisposers [(k, d)]) w) as [w1 [[]|e1]] eqn:Hhead.
    + destruct (IH Hrest ps idle eds omit w1 wc e Hrun)
        as (done & key & d' & f & rest' & wm & -> & Hf & Hdone & Hthrow & Hloop).
      exists ((k, d) :: done), key, d', f, rest', wm.
      split; [reflexivity|]. split; [exact Hf|]. split; [|split; [exact Hthrow | exact Hloop]].
      rewrite Hcons, runAll_app, Hhead. exact Hdone.
    + inversion Hrun. subst w1 e1.
      destruct d as [[v [f|]]|]; try discriminate Hhead.
      exists [], k, (mkCustomData v (Some f)), f, rest, w.
      split; [reflexivity|]. split; [reflexivity|]. split; [reflexivity|].
      split; [|reflexivity].
      cbn in Hhead. unfold bind in Hhead. cbn [value].
      destruct (f v w) as [w2 [[]|e2]]; [discriminate Hhead | exact Hhead].
Qed.

(** X10. A custom data disposer that throws leaves the editor half disposed,
    for good. The plugins and the event disposers have run and
    [eventDisposers] is already null; the entries before the failing one
    have had their disposers run and are deleted, the failing entry and
    those after it are still in [customData]; the core is still there, so
    [isDisposed] answers false; and every later [dispose] throws again, at
    the latest on the null [eventDisposers]. *)
Theorem dispose_failed_in_customData (ps : list EditorPlugin)
    (entries : list (string * option CustomData)) (idle : Z) (ds : list Disposer)
    (omit : bool) (w w1 wb wc : W) (e : Exn) :
  NoDup (map fst entries) ->
  api_triggerEvent (mkEvent BeforeDispose None None) true w = (w1, Ok tt) ->
  runAll (map plugin_dispose ps ++ ds) (if 0 <? idle then win_clearInterval idle w1 else w1)
    = (wb, Ok tt) ->
  runAll (customDisposers entries) wb = (wc, Throw e) ->
  exists done key d f rest wm,
    (entries = done ++ (key, Some d) :: rest /\
     disposer d = Some f /\
     runAll (customDisposers done) wb = (wm, Ok tt) /\
     f (value d) wm = (wc, Throw e)) /\
    let half :=
      mkEditor (Some (mkCore ps ((key, Some d) :: rest) (if 0 <? idle then 0 else idle)))
        None omit in
    dispose (mkHost (mkEditor (Some (mkCore ps entries idle)) (Some ds) omit) w)
      = (mkHost half wc, Throw e) /\
    isDisposed half = false /\
    forall w', exists e', snd (dispose (mkHost half w')) = Throw e'.
Proof.
  intros Hnd Hev Hfirst Hcustom.
  set (idle' := if 0 <? idle then 0 else idle).
  set (w2 := if 0 <? idle then win_clearInterval idle w1 else w1) in *.
  destruct (customData_loop_throw entries Hnd ps idle' None omit wb wc e Hcustom)
    as (done & key & d & f & rest & wm & Hsplit & Hf & Hdone & Hthrow & Hloop).
  exists done, key, d, f, rest, wm.
  split; [repeat split; assumption|].
  split; [|split; [reflexivity | intro w'; apply dispose_needs_eventDisposers; reflexivity]].
  rewrite runAll_app in Hfirst.
  destruct (runAll (map plugin_dispose ps) w2) as [wa [[]|e1]] eqn:Hplugins; [|discriminate].
  unfold Lifecycle.dispose.
  erewrite bind_ok; [|rewrite Editor_triggerEvent_live, Hev; reflexivity].
  erewrite bind_ok; [|reflexivity].
  erewrite (bind_ok _ _ _ (mkHost (mkEditor (Some (mkCore ps entries idle')) (Some ds) omit) w2));
    [|unfold idle', w2; cbn [idleLoopHandle]; destruct (0 <? idle); reflexivity].
  erewrite bind_ok; [|reflexivity].
  cbn [plugins]. rewrite bind_forEach_inWorld, Hplugins.
  erewrite bind_ok; [|reflexivity].
  rewrite bind_forEach_inWorld, map_id, Hfirst.
  erewrite bind_ok; [|reflexivity].
  erewrite bind_ok; [|reflexivity].
  unfold set_this, set_eventDisposers.
  cbn [customData this world core omitContentEditable].
  erewrite bind_throw; [|exact Hloop]. reflexivity.
Qed.

End LifecycleMore.

Section LifecycleMoreExamples.
Import Lifecycle DisposalScenario DisposalEdgeCases.

(** After a successful [dispose], a second [dispose], an event and a
    [runAsync] each throw a TypeError and leave the page as it is. *)
Lemma disposed_editor_throws_witness :
  dispose deliver clearInterval resetContentDiv afterDispose
    = (afterDispose, Throw TypeError) /\
  Editor_triggerEvent deliver (mkEvent ContentChanged None None) true afterDispose
    = (afterDispose, Throw TypeError) /\
  runAsync (Some mark) (mkWindow afterDispose []) = (mkWindow afterDispose [], Throw TypeError).
Proof.
  exact (disposed_editor_throws deliver clearInterval resetContentDiv afterDispose
           (mkEvent ContentChanged None None) true (Some mark) [] eq_refl).
Defined.

(** A plugin that throws on [BeforeDispose] keeps the healthy editor whole:
    nothing is released. *)
Lemma dispose_aborted_by_BeforeDispose_witness :
  dispose veto clearInterval resetContentDiv (mkHost healthy [])
    = (mkHost healthy [], Throw (Error "busy")).
Proof.
  exact (dispose_aborted_by_BeforeDispose veto clearInterval resetContentDiv
           (mkCore [mkPlugin "paste" (release "paste"); mkPlugin "link" (release "link")]
              pickerData 7)
           (Some [release "keydown"; release "blur"]) false [] [] (Error "busy") eq_refl).
Defined.

(** [runAsync] on the healthy editor registers one frame and releases
    nothing; fired on the live editor, the frame runs the callback. *)
Lemma runAsync_defers_witness :
  runAsync (Some mark) (mkWindow (mkHost healthy []) [])
    = (mkWindow (mkHost healthy []) [runAsync_frame (Some mark)], Ok tt) /\
  runAsync_frame (Some mark) (mkHost healthy []) = (mkHost healthy ["callback ran"], Ok tt).
Proof.
  exact (runAsync_defers mark (mkWindow (mkHost healthy []) []) (mkHost healthy [])
           eq_refl eq_refl).
Defined.

Lemma stuckData_keys : NoDup (map fst stuckData).
Proof.
  repeat constructor; simpl; intuition discriminate.
Qed.

(** The disposer of "picker" throws: "cache" is released and deleted,
    "picker" and "menu" stay, the editor is not disposed and cannot be. *)
Lemma dispose_failed_in_customData_witness :
  exists done key d f rest wm,
    (stuckData = done ++ (key, Some d) :: rest /\
     disposer d = Some f /\
     runAll (customDisposers done) ["idle loop"; "paste"; "keydown"] = (wm, Ok tt) /\
     f (value d) wm = (["idle loop"; "paste"; "keydown"; "cache"], Throw (Error "picker"))) /\
    dispose deliver clearInterval resetContentDiv (mkHost stuck [])
      = (mkHost (mkEditor (Some (mkCore [mkPlugin "paste" (release "paste")]
                                   ((key, Some d) :: rest) 0))
                   None false)
           ["idle loop"; "paste"; "keydown"; "cache"],
         Throw (Error "picker")) /\
    isDisposed (mkEditor (Some (mkCore [mkPlugin "paste" (release "paste")]
                                  ((key, Some d) :: rest) 0))
                  None false) = false /\
    forall w', exists e',
      snd (dispose deliver clearInterval resetContentDiv
             (mkHost (mkEditor (Some (mkCore [mkPlugin "paste" (release "paste")]
                                        ((key, Some d) :: rest) 0))
                        None false) w'))
        = Throw e'.
Proof.
  exact (dispose_failed_in_customData deliver clearInterval resetContentDiv
           [mkPlugin "paste" (release "paste")] stuckData 7 [release "keydown"] false
           [] [] ["idle loop"; "paste"; "keydown"] ["idle loop"; "paste"; "keydown"; "cache"]
           (Error "picker") stuckData_keys eq_refl eq_refl eq_refl).
Defined.

(** The run itself: "cache" is gone from [customData], "picker" and "menu"
    are not. *)
Lemma dispose_stuck_keeps_picker_and_menu :
  dispose deliver clearInterval resetContentDiv (mkHost stuck [])
    = (mkHost (mkEditor (Some (mkCore [mkPlugin "paste" (release "paste")]
                                 [("picker", Some (mkCustomData "picker" (Some broken)));
                                  ("menu", Some (mkCustomData "menu" (Some release)))] 0))
                 None false)
         ["idle loop"; "paste"; "keydown"; "cache"],
       Throw (Error "picker")).
Proof. reflexivity. Qed.

End LifecycleMoreExamples.

(** ** Scopers, selection ranges and selection restore *)

Section TraversalMore.
Import Dom Selection Scopers.

(** [Node.contains] only finds what is under the root. *)
Lemma Node_contains_only_Under (r n : Node) :
  Node_contains r n = true -> exists m, Under r m /\ nodeId m = nodeId n.
Proof.
  revert r. apply (@NodeApi.Node_forall_ind
    (fun r => Node_contains r n = true -> exists m, Under r m /\ nodeId m = nodeId n)).
  - intros id tag cs IH H. simpl in H. apply orb_true_iff in H. destruct H as [H|H].
    + exists (ElementNode id tag cs). split; [apply Under_self|].
      apply Nat.eqb_eq in H. exact H.
    + apply existsb_exists in H. destruct H as (c & Hin & Hc).
      rewrite Forall_forall in IH. destruct (IH c Hin Hc) as (m & Hm & Hid).
      exists m. split; [|exact Hid].
      eapply Under_child; [reflexivity | exact Hin | exact Hm].
  - intros id d H. simpl in H. rewrite orb_false_r in H.
    exists (TextNode id d). split; [apply Under_self | apply Nat.eqb_eq; exact H].
  - intros id d H. simpl in H. rewrite orb_false_r in H.
    exists (CommentNode id d). split; [apply Under_self | apply Nat.eqb_eq; exact H].
Qed.

(** X11. A [BodyScoper] holds a block in scope only if the block's start node
    is a node of the tree under the root: no block that starts outside
    the root is ever in scope. *)
Theorem BodyScoper_scope_only_under_root
    (getFirstBlockElement : Node -> option BlockElement)
    (getFirstInlineElement : Node -> option InlineElement)
    (rootNode : Node) (blockElement : BlockElement) :
  isBlockInScope (BodyScoper getFirstBlockElement getFirstInlineElement rootNode) blockElement
    = true ->
  exists m, Under rootNode m /\ sameNode m (getStartNode blockElement) = true.
Proof.
  intro H. simpl in H. apply Node_contains_only_Under in H.
  destruct H as (m & Hm & Hid). exists m. split; [exact Hm|].
  apply Nat.eqb_eq. exact Hid.
Qed.

End TraversalMore.

Section SelectionRangeMore.
Import Dom Selection SelectionRangeOps.

Variable Position_new : Node -> Z -> Position.
Variable Position_normalize : Position -> Position.
Variable createRange : Position -> Position -> Range.

(** X12. [getRange] is memoized: the first call on a range built from positions
    builds the browser range and keeps it, every later call returns that
    same range without building one, and the positions and the collapsed
    flag never change. A range adapted from a browser range hands that
    range back and never builds one. *)
Theorem getRange_memoized (s : SelectionRange) (raw : Range) (other : Position -> Position -> Range) :
  let first := getRange createRange s in
  getRange other (snd first) = first /\
  rawRange (snd first) = Some (fst first) /\
  (start (snd first) = start s /\ end_ (snd first) = end_ s /\
   collapsed (snd first) = collapsed s) /\
  (rawRange s = None -> fst first = createRange (start s) (end_ s)) /\
  getRange other (SelectionRange_new Position_new (inr raw) None)
    = (raw, SelectionRange_new Position_new (inr raw) None).
Proof.
  unfold getRange. destruct s as [col st en [r|]]; cbn.
  - repeat split. discriminate.
  - repeat split.
Qed.

(** X13. [normalize] rebuilds the range from the normalized positions: the
    browser range is dropped, the collapsed flag is computed afresh (two
    positions that normalize to the same point give a collapsed range), a
    range built from a single position stays collapsed, and when
    [Position.normalize] is idempotent so is [normalize]. *)
Theorem normalize_rebuilds (s : SelectionRange) (p : Position) :
  let n := normalize Position_new Position_normalize s in
  (start n = Position_normalize (start s) /\ end_ n = Position_normalize (end_ s) /\
   rawRange n = None) /\
  collapsed n = Position_equalTo (Position_normalize (start s)) (Position_normalize (end_ s)) /\
  collapsed (normalize Position_new Position_normalize
               (SelectionRange_new Position_new (inl p) None)) = true /\
  ((forall q, Position_normalize (Position_normalize q) = Position_normalize q) ->
   normalize Position_new Position_normalize n = n).
Proof.
  cbn. split; [repeat split|]. split; [reflexivity|]. split.
  - rewrite sameNode_refl, Z.eqb_refl. reflexivity.
  - intro Hidem. unfold normalize. cbn. rewrite !Hidem. reflexivity.
Qed.

End SelectionRangeMore.

Section KeepSelectionMore.
Import Dom Selection KeepSelection.

Variable contains : ContainsFn.
Variable normalizeEditorPoint : Node -> Z -> EditorPoint.

Lemma dataLength_nonneg (n : Node) : 0 <= dataLength n.
Proof. destruct n; simpl; lia. Qed.

(** What acceptance tells about a point. *)
Lemma validateEditorPoint_accepted (content : Node) (point point' : EditorPoint) :
  validateEditorPoint contains content point = (true, point') ->
  exists n,
    (containerNode point = Some n /\ containerNode point' = Some n) /\
    contains content n = true /\
    (0 <= offset point' /\ offset point' <= offset point) /\
    (nodeType n = Text -> offset point' <= dataLength n) /\
    (nodeType n = Element -> offset point' <= Z.of_nat (List.length (childNodes n))).
Proof.
  unfold validateEditorPoint, Editor_contains. intro H.
  destruct (containerNode point) as [n|] eqn:Hn; [|discriminate].
  destruct (contains content n) eqn:Hin; [|discriminate].
  exists n.
  destruct n as [id tag cs|id d|id d]; cbn [nodeType] in H;
    injection H as Hpos Hpoint; subst point'; cbn [containerNode offset];
    apply Z.leb_le in Hpos.
  - split; [split; first [reflexivity | exact Hn]|]. split; [exact Hin|].
    split; [split; [exact Hpos | apply Z.le_min_l]|].
    split; [discriminate|]. intros _. apply Z.le_min_r.
  - split; [split; first [reflexivity | exact Hn]|]. split; [exact Hin|].
    split; [split; [exact Hpos | apply Z.le_min_l]|].
    split; [|discriminate]. intros _. apply Z.le_min_r.
  - split; [split; first [reflexivity | exact Hn]|]. split; [exact Hin|].
    split; [split; [exact Hpos | lia]|].
    split; discriminate.
Qed.

(** A node found under an identity has that identity. *)
Lemma findNode_id (id : nat) (n m : Node) : findNode id n = Some m -> nodeId m = id.
Proof.
  revert n m. apply (@NodeApi.Node_forall_ind
    (fun n => forall m, findNode id n = Some m -> nodeId m = id)).
  - intros id0 tag cs IH m H. cbn [findNode nodeId] in H.
    destruct (Nat.eqb_spec id0 id) as [E|_].
    + inversion H. subst m. exact E.
    + induction IH as [|c rest Hc _ IHrest]; [discriminate H|].
      cbn in H. destruct (findNode id c) as [m'|].
      * exact (Hc m H).
      * exact (IHrest H).
  - intros id0 d m H. cbn [findNode nodeId] in H.
    destruct (Nat.eqb_spec id0 id) as [E|_]; [|discriminate H].
    inversion H. subst m. exact E.
  - intros id0 d m H. cbn [findNode nodeId] in H.
    destruct (Nat.eqb_spec id0 id) as [E|_]; [|discriminate H].
    inversion H. subst m. exact E.
Qed.

(** A node the tree under [x] contains is found there. *)
Lemma Node_contains_findNode (x n : Node) :
  Node_contains x n = true -> exists m, findNode (nodeId n) x = Some m.
Proof.
  revert x. apply (@NodeApi.Node_forall_ind
    (fun x => Node_contains x n = true -> exists m, findNode (nodeId n) x = Some m)).
  - intros id tag cs IH H. cbn [findNode nodeId].
    change (Node_contains (ElementNode id tag cs) n)
      with (Nat.eqb id (nodeId n) || existsb (fun c => Node_contains c n) cs) in H.
    destruct (Nat.eqb id (nodeId n)); [eexists; reflexivity|].
    cbn [orb] in H.
    induction IH as [|c rest Hc _ IHrest]; [discriminate H|].
    cbn [existsb] in H.
    destruct (findNode (nodeId n) c) as [m|] eqn:Hfound; [exists m; reflexivity|].
    destruct (Node_contains c n).
    + destruct (Hc eq_refl) as [m Hm]. discriminate Hm.
    + exact (IHrest H).
  - intros id d H. cbn [findNode nodeId]. cbn in H. rewrite orb_false_r in H.
    unfold sameNode in H. cbn [nodeId] in H. rewrite H. eexists; reflexivity.
  - intros id d H. cbn [findNode nodeId]. cbn in H. rewrite orb_false_r in H.
    unfold sameNode in H. cbn [nodeId] in H. rewrite H. eexists; reflexivity.
Qed.

(** Containment through the tree only holds of nodes of the tree. *)
Lemma strictlyContains_findNode (content n : Node) :
  strictlyContains content n = true -> exists m, findNode (nodeId n) content = Some m.
Proof.
  intro H. apply Node_contains_findNode.
  destruct content as [id tag cs|id d|id d]; [|discriminate H|discriminate H].
  change (Node_contains (ElementNode id tag cs) n)
    with (sameNode (ElementNode id tag cs) n || existsb (fun c => Node_contains c n) cs).
  unfold strictlyContains in H. cbn [childNodes] in H. rewrite H. apply orb_true_r.
Qed.

(** The live state of a node is its own live state. *)
Lemma live_idempotent (content n : Node) : live content (live content n) = live content n.
Proof.
  unfold live at 2 3. destruct (findNode (nodeId n) content) as [m|] eqn:Hfound.
  - unfold live. rewrite (findNode_id _ _ _ Hfound), Hfound. reflexivity.
  - unfold live. rewrite Hfound. reflexivity.
Qed.

(** X14. [validateEditorPoint] never changes the container and never raises the
    offset; a point it refuses is left exactly as it was; and a point it
    accepted is accepted again, unchanged: clamping is idempotent. *)
Theorem validateEditorPoint_idempotent (content : Node) (point : EditorPoint) :
  let result := validateEditorPoint contains content point in
  containerNode (snd result) = containerNode point /\
  offset (snd result) <= offset point /\
  (fst result = false -> snd result = point) /\
  (fst result = true ->
   validateEditorPoint contains content (snd result) = (true, snd result)).
Proof.
  unfold validateEditorPoint, Editor_contains.
  destruct point as [[n|] o]; cbn [containerNode offset].
  2: { cbn. repeat split; try lia; try discriminate. }
  destruct (contains content n) eqn:Hin.
  2: { cbn. repeat split; try lia; try discriminate. }
  destruct n as [id tag cs|id d|id d]; cbn [nodeType snd fst containerNode offset].
  - split; [reflexivity|]. split; [apply Z.le_min_l|]. split.
    + intro H. apply Z.leb_gt in H. f_equal. lia.
    + intro H. rewrite Hin. cbn [nodeType offset containerNode].
      rewrite Z.min_l by apply Z.le_min_r. rewrite H. reflexivity.
  - pose proof (dataLength_nonneg (TextNode id d)) as Hlen.
    split; [reflexivity|]. split; [apply Z.le_min_l|]. split.
    + intro H. apply Z.leb_gt in H. f_equal. lia.
    + intro H. rewrite Hin. cbn [nodeType offset containerNode].
      rewrite Z.min_l by apply Z.le_min_r. rewrite H. reflexivity.
  - split; [reflexivity|]. split; [lia|]. split.
    + reflexivity.
    + intro H. rewrite Hin. cbn [nodeType offset]. rewrite H. reflexivity.
Qed.

(** X15. [keepSelection] on an editor without a selection range. The callback
    gets no points; a fallback range is selected as it is; with no
    fallback [updateSelection] is called with null; and a fallback node
    makes the function throw a TypeError ([range.selectNode] on the null
    range) after the callback has run. *)
Theorem keepSelection_without_selection (content : Node) (callback : Callback) :
  keepSelection contains normalizeEditorPoint (mkEditor content None) callback
    = match callback None None content with
      | (after, _, Throw e) => (after, Throw e)
      | (after, _, Ok (FallbackNode _)) => (after, Throw TypeError)
      | (after, _, Ok (FallbackRange r)) => (after, Ok (mkUpdate (Some r) []))
      | (after, _, Ok NoFallback) => (after, Ok (mkUpdate None []))
      end.
Proof.
  unfold keepSelection. cbn.
  destruct (callback None None content) as [[after writes] [[n|r|]|e]]; reflexivity.
Qed.

(** X16. When [keepSelection] positions the range from the points, it does so
    on the editor's own range with exactly one [setStart] and one
    [setEnd], whatever fallback the callback returned. The nodes the two
    calls receive are the containers the points hold after the callback
    (what the callback assigned, if it assigned any), in their state
    after the callback; both are inside the editor; and each offset is
    not negative, not above the offset the point held after the callback,
    and within the length such a text node or element has then, so
    neither call can raise an IndexSizeError. When [contains] only holds
    of nodes that are in the content, the two nodes are nodes of the
    content as it is after the callback. *)
Theorem keepSelection_positions_in_bounds (editor : Editor) (callback : Callback)
    (content : Node) (update : Update) :
  keepSelection contains normalizeEditorPoint editor callback = (content, Ok update) ->
  existsb fromPoint (calls update) = true ->
  exists r writes fallback startNode startAt endNode endAt,
    (selectionRange editor = Some r /\ base update = Some r /\
     callback (Some (normalizeEditorPoint (startContainer r) (startOffset r)))
       (Some (normalizeEditorPoint (endContainer r) (endOffset r))) (contentDiv editor)
       = (content, writes, Ok fallback)) /\
    calls update = [SetStart (Some startNode) startAt; SetEnd (Some endNode) endAt] /\
    (containerNode (afterCallback StartPoint writes content
                      (normalizeEditorPoint (startContainer r) (startOffset r)))
       = Some startNode /\
     containerNode (afterCallback EndPoint writes content
                      (normalizeEditorPoint (endContainer r) (endOffset r)))
       = Some endNode) /\
    (live content startNode = startNode /\ live content endNode = endNode) /\
    (contains content startNode = true /\ contains content endNode = true) /\
    ((forall c n, contains c n = true -> exists m, findNode (nodeId n) c = Some m) ->
     findNode (nodeId startNode) content = Some startNode /\
     findNode (nodeId endNode) content = Some endNode) /\
    (0 <= startAt <=
       offset (written StartPoint writes
                 (normalizeEditorPoint (startContainer r) (startOffset r))) /\
     0 <= endAt <=
       offset (written EndPoint writes
                 (normalizeEditorPoint (endContainer r) (endOffset r)))) /\
    (nodeType startNode = Text -> startAt <= dataLength startNode) /\
    (nodeType startNode = Element ->
     startAt <= Z.of_nat (List.length (childNodes startNode))) /\
    (nodeType endNode = Text -> endAt <= dataLength endNode) /\
    (nodeType endNode = Element -> endAt <= Z.of_nat (List.length (childNodes endNode))).
Proof.
  intros Hkeep Hcalls. unfold keepSelection in Hkeep.
  assert (Hfb : forall range fallback u, useFallback range fallback = Ok u ->
                                         existsb fromPoint (calls u) = false).
  { intros range fallback u Hu. destruct fallback, range; inversion Hu; reflexivity. }
  destruct (selectionRange editor) as [r|] eqn:Hr; cbn [option_map] in Hkeep.
  2: { destruct (callback None None (contentDiv editor)) as [[content' writes] [fallback|e]];
         [|discriminate].
       injection Hkeep as _ Hupdate. rewrite (Hfb _ _ _ Hupdate) in Hcalls. discriminate. }
  destruct (callback (Some (normalizeEditorPoint (startContainer r) (startOffset r)))
              (Some (normalizeEditorPoint (endContainer r) (endOffset r)))
              (contentDiv editor)) as [[content' writes] [fallback|e]] eqn:Hcb;
    [|discriminate].
  injection Hkeep as Hcontent Hupdate. subst content'.
  destruct (validateEditorPoint contains content
              (afterCallback StartPoint writes content
                 (normalizeEditorPoint (startContainer r) (startOffset r))))
    as [[] sp'] eqn:Hs.
  2: { rewrite (Hfb _ _ _ Hupdate) in Hcalls. discriminate. }
  destruct (validateEditorPoint contains content
              (afterCallback EndPoint writes content
                 (normalizeEditorPoint (endContainer r) (endOffset r))))
    as [[] ep'] eqn:He.
  2: { rewrite (Hfb _ _ _ Hupdate) in Hcalls. discriminate. }
  injection Hupdate as Hupdate. subst update.
  destruct (validateEditorPoint_accepted _ _ _ Hs)
    as (sn & [Hsn0 Hsn] & Hsin & Hs0 & HsT & HsE).
  destruct (validateEditorPoint_accepted _ _ _ He)
    as (en & [Hen0 Hen] & Hein & He0 & HeT & HeE).
  exists r, writes, fallback, sn, (offset sp'), en, (offset ep').
  cbn [base calls]. rewrite Hsn, Hen.
  assert (Hlive : forall p point n,
             containerNode (afterCallback p writes content point) = Some n ->
             live content n = n).
  { intros p point n H. unfold afterCallback in H. cbn [containerNode] in H.
    destruct (containerNode (written p writes point)) as [m|]; [|discriminate H].
    cbn [option_map] in H. inversion H. apply live_idempotent. }
  split; [split; [reflexivity | split; [reflexivity | exact Hcb]]|]. split; [reflexivity|].
  split; [split; assumption|].
  split; [split; [exact (Hlive _ _ _ Hsn0) | exact (Hlive _ _ _ Hen0)]|].
  split; [split; assumption|].
  split.
  { intro Hin. split.
    - destruct (Hin content sn Hsin) as [m Hm].
      pose proof (Hlive _ _ _ Hsn0) as Hl. unfold live in Hl. rewrite Hm in Hl.
      subst m. exact Hm.
    - destruct (Hin content en Hein) as [m Hm].
      pose proof (Hlive _ _ _ Hen0) as Hl. unfold live in Hl. rewrite Hm in Hl.
      subst m. exact Hm. }
  split; [split; assumption|].
  repeat split; assumption.
Qed.

End KeepSelectionMore.

Section SelectionMoreExamples.
Import Dom Selection Scenario TraversalScenario SelectionEdgeCases.

(** The second paragraph is in scope, so it is under the root. *)
Lemma BodyScoper_scope_only_under_root_witness :
  exists m,
    Scopers.Under twoParagraphs m /\
    sameNode m (Scopers.getStartNode (Scopers.NodeBlockElement part2)) = true.
Proof.
  exact (BodyScoper_scope_only_under_root noBlock noInline twoParagraphs
           (Scopers.NodeBlockElement part2) eq_refl).
Defined.

(** The callback cuts "part1" down to "pa" with the caret at offset 5: the
    range is positioned in the text node as it is afterwards, at offset 2. *)
Lemma keepSelection_positions_in_bounds_witness :
  exists r writes fallback startNode startAt endNode endAt,
    (KeepSelection.selectionRange caretAfterPart1 = Some r /\
     Some (mkRange part1Text 5 part1Text 5) = Some r /\
     shorten (Some (pointAt (startContainer r) (startOffset r)))
       (Some (pointAt (endContainer r) (endOffset r)))
       (KeepSelection.contentDiv caretAfterPart1)
       = (shortened, writes, Ok fallback)) /\
    [KeepSelection.SetStart (Some shortText) 2; KeepSelection.SetEnd (Some shortText) 2]
      = [KeepSelection.SetStart (Some startNode) startAt;
         KeepSelection.SetEnd (Some endNode) endAt] /\
    (KeepSelection.containerNode
       (KeepSelection.afterCallback KeepSelection.StartPoint writes shortened
          (pointAt (startContainer r) (startOffset r))) = Some startNode /\
     KeepSelection.containerNode
       (KeepSelection.afterCallback KeepSelection.EndPoint writes shortened
          (pointAt (endContainer r) (endOffset r))) = Some endNode) /\
    (KeepSelection.live shortened startNode = startNode /\
     KeepSelection.live shortened endNode = endNode) /\
    (KeepSelection.strictlyContains shortened startNode = true /\
     KeepSelection.strictlyContains shortened endNode = true) /\
    ((forall c n, KeepSelection.strictlyContains c n = true ->
                  exists m, KeepSelection.findNode (nodeId n) c = Some m) ->
     KeepSelection.findNode (nodeId startNode) shortened = Some startNode /\
     KeepSelection.findNode (nodeId endNode) shortened = Some endNode) /\
    (0 <= startAt <=
       KeepSelection.offset
         (KeepSelection.written KeepSelection.StartPoint writes
            (pointAt (startContainer r) (startOffset r))) /\
     0 <= endAt <=
       KeepSelection.offset
         (KeepSelection.written KeepSelection.EndPoint writes
            (pointAt (endContainer r) (endOffset r)))) /\
    (nodeType startNode = Text -> startAt <= KeepSelection.dataLength startNode) /\
    (nodeType startNode = Element ->
     startAt <= Z.of_nat (List.length (childNodes startNode))) /\
    (nodeType endNode = Text -> endAt <= KeepSelection.dataLength endNode) /\
    (nodeType endNode = Element -> endAt <= Z.of_nat (List.length (childNodes endNode))).
Proof.
  exact (keepSelection_positions_in_bounds KeepSelection.strictlyContains pointAt
           caretAfterPart1 shorten shortened
           (KeepSelection.mkUpdate (Some (mkRange part1Text 5 part1Text 5))
              [KeepSelection.SetStart (Some shortText) 2;
               KeepSelection.SetEnd (Some shortText) 2])
           eq_refl eq_refl).
Defined.

End SelectionMoreExamples.

(** ** Removing a node *)

Section NodeApiMore.
Import Dom NodeApi.

Lemma removeNode_element (target id : nat) (tag : string) (cs : list Node) :
  removeNode target (ElementNode id tag cs) = ElementNode id tag (removeAmong target cs).
Proof.
  simpl. f_equal. induction cs as [|c rest IH]; simpl.
  - reflexivity.
  - rewrite IH. reflexivity.
Qed.

Lemma nodeId_removeNode (target : nat) (n : Node) :
  nodeId (removeNode target n) = nodeId n.
Proof. destruct n; reflexivity. Qed.

Lemma removeAmong_clean (x : Node) (cs : list Node) :
  Forall (fun c => nodeId c <> nodeId x ->
                   Node_contains (removeNode (nodeId x) c) x = false) cs ->
  existsb (fun c => Node_contains c x) (removeAmong (nodeId x) cs) = false.
Proof.
  induction 1 as [|c rest Hc _ IH]; simpl.
  - reflexivity.
  - destruct (Nat.eqb_spec (nodeId c) (nodeId x)) as [_|Hne]; [exact IH|].
    simpl. rewrite (Hc Hne), IH. reflexivity.
Qed.

(** After the removal, the node is nowhere in what is left. *)
Lemma removeNode_clean (x n : Node) :
  nodeId n <> nodeId x -> Node_contains (removeNode (nodeId x) n) x = false.
Proof.
  revert n. apply (@Node_forall_ind
    (fun n => nodeId n <> nodeId x -> Node_contains (removeNode (nodeId x) n) x = false)).
  - intros id tag cs IH Hne. rewrite removeNode_element.
    change (Node_contains (ElementNode id tag (removeAmong (nodeId x) cs)) x)
      with (sameNode (ElementNode id tag (removeAmong (nodeId x) cs)) x
            || existsb (fun c => Node_contains c x) (removeAmong (nodeId x) cs)).
    rewrite (removeAmong_clean x cs IH), orb_false_r.
    apply Nat.eqb_neq. exact Hne.
  - intros id d Hne. simpl. rewrite orb_false_r. apply Nat.eqb_neq. exact Hne.
  - intros id d Hne. simpl. rewrite orb_false_r. apply Nat.eqb_neq. exact Hne.
Qed.

Lemma strictlyContains_removeNode (x content : Node) :
  KeepSelection.strictlyContains (removeNode (nodeId x) content) x = false.
Proof.
  unfold KeepSelection.strictlyContains. destruct content as [id tag cs|id d|id d];
    [|reflexivity|reflexivity].
  rewrite removeNode_element. cbn [childNodes].
  apply removeAmong_clean. apply Forall_forall. intros c _. apply removeNode_clean.
Qed.

(** X17. [Editor.deleteNode], when [contains] only answers true for a node
    strictly below the content div. It removes the node exactly when the
    node is given and in the editor; a refused call changes nothing;
    afterwards the node is not in the editor, so deleting it again returns
    false and changes nothing; and the content div itself is never
    removed. *)
Theorem deleteNode_removes (contains : ContainsFn) (content : Node) (node : option Node) :
  (forall c n, contains c n = true -> KeepSelection.strictlyContains c n = true) ->
  let result := deleteNode contains content node in
  (snd result = true <-> exists n, node = Some n /\ contains content n = true) /\
  (snd result = false -> fst result = content) /\
  (forall n, node = Some n -> contains (fst result) n = false) /\
  deleteNode contains (fst result) node = (fst result, false) /\
  nodeId (fst result) = nodeId content.
Proof.
  intros Hstrict result. subst result. unfold deleteNode.
  destruct node as [n|].
  2: { cbn. split; [split; [discriminate | intros (n & Hn & _); discriminate]|].
       repeat split. intros n Hn. discriminate. }
  destruct (contains content n) eqn:Hin; cbn [fst snd].
  - assert (Hgone : contains (removeNode (nodeId n) content) n = false).
    { destruct (contains (removeNode (nodeId n) content) n) eqn:Hstill; [|reflexivity].
      apply Hstrict in Hstill. rewrite strictlyContains_removeNode in Hstill.
      discriminate. }
    split; [split; [intros _; exists n; split; [reflexivity | exact Hin] | reflexivity]|].
    split; [discriminate|].
    split; [intros m Hm; inversion Hm; subst m; exact Hgone|].
    split; [rewrite Hgone; reflexivity | apply nodeId_removeNode].
  - split; [split; [discriminate|]|].
    + intros (m & Hm & Hc). inversion Hm. subst m. congruence.
    + split; [reflexivity|].
      split; [intros m Hm; inversion Hm; subst m; exact Hin|].
      split; [rewrite Hin; reflexivity | reflexivity].
Qed.

End NodeApiMore.

Section NodeApiExamples.
Import Dom Scenario.

(** Deleting the second paragraph leaves the first; deleting it again is
    refused. *)
Lemma deleteNode_removes_witness :
  NodeApi.deleteNode KeepSelection.strictlyContains twoParagraphs (Some part2)
    = (oneParagraph, true) /\
  NodeApi.deleteNode KeepSelection.strictlyContains oneParagraph (Some part2)
    = (oneParagraph, false).
Proof.
  pose proof (deleteNode_removes KeepSelection.strictlyContains twoParagraphs (Some part2)
                (fun _ _ H => H)) as H.
  cbv zeta in H. destruct H as (_ & _ & _ & Hagain & _).
  split; [reflexivity | exact Hagain].
Defined.

End NodeApiExamples.

(** ** The default format *)

Section DefaultFormatMore.
Import Dom DefaultFormats.

Variable getComputedStyles : Node -> list string.

Lemma orElse_given (a b : option string) : given a = true -> orElse a b = a.
Proof.
  destruct a as [s|]; simpl; [|discriminate].
  destruct (String.eqb s ""); [discriminate | reflexivity].
Qed.

Lemma orElse_missing (a b : option string) : given a = false -> orElse a b = b.
Proof.
  destruct a as [s|]; simpl; [|reflexivity].
  destruct (String.eqb s ""); [reflexivity | discriminate].
Qed.

Lemma orElse_twice (a b : option string) : orElse (orElse a b) b = orElse a b.
Proof.
  destruct (given a) eqn:Ha.
  - rewrite (orElse_given a b Ha). apply orElse_given. exact Ha.
  - rewrite (orElse_missing a b Ha).
    destruct (given b) eqn:Hb; [apply orElse_given | apply orElse_missing]; exact Hb.
Qed.

(** X18. [calcDefaultFormat]: a font family, font size, text colour or
    background colour that is given and not empty is kept; one that is
    missing or empty is taken from the computed style of the node (the
    background colour becomes the empty string, so it is never undefined);
    bold, italic and underline are passed through; and computing the
    default format of the result changes nothing. *)
Theorem calcDefaultFormat_fills_gaps (node : Node) (base : DefaultFormat) :
  let format := calcDefaultFormat getComputedStyles node (Some base) in
  let computed := getComputedStyles node in
  (fontFamily format = if given (fontFamily base) then fontFamily base
                       else nth_error computed 0) /\
  (fontSize format = if given (fontSize base) then fontSize base else nth_error computed 1) /\
  (textColor format = if given (textColor base) then textColor base
                      else nth_error computed 2) /\
  (backgroundColor format = if given (backgroundColor base) then backgroundColor base
                            else Some "") /\
  backgroundColor format <> None /\
  (bold format = bold base /\ italic format = italic base /\
   underline format = underline base) /\
  calcDefaultFormat getComputedStyles node (Some format) = format /\
  calcDefaultFormat getComputedStyles node None
    = calcDefaultFormat getComputedStyles node (Some emptyFormat).
Proof.
  assert (Hcase : forall a b, orElse a b = if given a then a else b).
  { intros a b. destruct (given a) eqn:Ha;
      [apply orElse_given | apply orElse_missing]; exact Ha. }
  assert (Hagain : calcDefaultFormat getComputedStyles node
                     (Some (calcDefaultFormat getComputedStyles node (Some base)))
                   = calcDefaultFormat getComputedStyles node (Some base)).
  { unfold calcDefaultFormat. cbn. rewrite !orElse_twice. reflexivity. }
  cbv zeta. split; [apply Hcase|]. split; [apply Hcase|]. split; [apply Hcase|].
  split; [apply Hcase|]. split.
  - cbn. rewrite Hcase. destruct (given (backgroundColor base)) eqn:Hb; [|discriminate].
    destruct (backgroundColor base); [discriminate | discriminate Hb].
  - split; [repeat split|]. split; [exact Hagain | reflexivity].
Qed.

End DefaultFormatMore.

(** ** Key events *)

Section KeyboardMore.
Import Keyboard.

(** X19. [stopPropagation] lets every key with Ctrl, Alt or Meta held reach the
    page, and every key outside the typing keys: Backspace, Tab, Enter and
    Escape (codes below 32), the navigation and editing keys (33-47), the
    function keys and numpad operators (106-185). It only ever sets the
    stopped mark, and applying it twice is applying it once. *)
Theorem stopPropagation_spares_shortcuts (event : KeyboardEvent) :
  (ctrlKey event || altKey event || metaKey event = true -> stopPropagation event = event) /\
  (which event < 32 \/ 33 <= which event <= 47 \/ 58 <= which event <= 64 \/
   91 <= which event <= 95 \/ 106 <= which event <= 185 \/
   193 <= which event <= 218 \/ 223 <= which event ->
   stopPropagation event = event) /\
  (stopped event = true -> stopped (stopPropagation event) = true) /\
  (ctrlKey (stopPropagation event) = ctrlKey event /\
   altKey (stopPropagation event) = altKey event /\
   metaKey (stopPropagation event) = metaKey event /\
   which (stopPropagation event) = which event) /\
  stopPropagation (stopPropagation event) = stopPropagation event.
Proof.
  unfold stopPropagation, between.
  destruct event as [c a m w s]; cbn [ctrlKey altKey metaKey which stopped].
  split; [|split; [|split; [|split]]].
  - intro H. destruct c, a, m; try discriminate H; reflexivity.
  - intro H.
    replace ((w =? 32) || (65 <=? w) && (w <=? 90) || (48 <=? w) && (w <=? 57)
             || (96 <=? w) && (w <=? 105) || (186 <=? w) && (w <=? 192)
             || (219 <=? w) && (w <=? 222)) with false.
    + rewrite andb_false_r. reflexivity.
    + symmetry. repeat (apply orb_false_iff; split);
        first [apply Z.eqb_neq; lia
              | apply andb_false_iff;
                destruct (Z.leb_spec 65 w), (Z.leb_spec 48 w), (Z.leb_spec 96 w),
                  (Z.leb_spec 186 w), (Z.leb_spec 219 w); auto;
                right; apply Z.leb_gt; lia].
  - intro Hs. subst s.
    destruct (negb c && negb a && negb m && _); reflexivity.
  - destruct (negb c && negb a && negb m && _); repeat split.
  - destruct (negb c && negb a && negb m && _) eqn:E;
      cbn [ctrlKey altKey metaKey which stopped]; rewrite E; reflexivity.
Qed.

End KeyboardMore.
